(** * LLMStack processor runtime: a shallow embedding

    Sources embedded here:
    - [llmstack/processors/providers/api_processor_interface.py]
      ([ApiProcessorInterface]: [__init__], [_upload_asset_from_url],
      [validate_and_process], [input] and the overridable hooks);
    - [llmstack/processors/providers/promptly/static_web_browser.py]
      ([BrowserInstructionType], [BrowserInstruction],
      [StaticWebBrowser._web_browser_instruction_to_command]).

    Python objects are values of [value]; a raised exception is an [exn];
    a method of the actor is a computation of the monad [M], which threads
    the actor's attributes and the trace of calls made to collaborators
    and keeps every assignment made before an exception was raised. *)

From Stdlib Require Import String Ascii List Bool ZArith Lia.
Import ListNotations.
Local Open Scope string_scope.

(* ===================================================================== *)
(** ** Python values *)
(* ===================================================================== *)

Module Py.

(** [isinstance(x, BaseModel)] and [isinstance(x, ApiProcessorSchema)]:
    [ApiProcessorSchema] derives from pydantic's [BaseModel]. *)
Inductive model_kind : Type :=
| ApiProcessorSchema
| PlainBaseModel.

(** The fragment of Python data the runtime handles.  Dictionaries keep
    their insertion order and have string keys. *)
#[warnings="-register-all"] Inductive value : Type :=
| VNone
| VBool (b : bool)
| VInt (z : Z)
| VStr (s : string)
| VList (l : list value)
| VDict (d : list (string * value))
| VModel (k : model_kind) (fields : list (string * value)).

(** Truth value of an object used as a condition.  A pydantic model
    defines neither [__bool__] nor [__len__], so an instance is true. *)
Definition truthy (v : value) : bool :=
  match v with
  | VNone => false
  | VBool b => b
  | VInt z => negb (z =? 0)%Z
  | VStr s => negb (String.eqb s "")
  | VList l => match l with [] => false | _ => true end
  | VDict d => match d with [] => false | _ => true end
  | VModel _ _ => true
  end.

Definition is_BaseModel (v : value) : bool :=
  match v with VModel _ _ => true | _ => false end.

Definition is_ApiProcessorSchema (v : value) : bool :=
  match v with VModel ApiProcessorSchema _ => true | _ => false end.

Definition is_dict (v : value) : bool :=
  match v with VDict _ => true | _ => false end.

(** [m.model_dump()]: the fields as a dictionary, nested models dumped. *)
Fixpoint dump (v : value) : value :=
  match v with
  | VList l => VList (map dump l)
  | VDict d => VDict (map (fun kv => (fst kv, dump (snd kv))) d)
  | VModel _ fs => VDict (map (fun kv => (fst kv, dump (snd kv))) fs)
  | _ => v
  end.

Definition model_dump (v : value) : value := dump v.

(** An exception: its class name and [str(e)]. *)
Record exn : Type := mkExn { exn_class : string; exn_str : string }.

Definition Exception (msg : string) : exn := mkExn "Exception" msg.
Definition TypeError (msg : string) : exn := mkExn "TypeError" msg.
Definition AttributeError (msg : string) : exn := mkExn "AttributeError" msg.
Definition ValidationError (msg : string) : exn := mkExn "ValidationError" msg.

(** The outcome of a call: a returned value or a raised exception. *)
Inductive outcome (A : Type) : Type :=
| Ok (a : A)
| Raise (e : exn).
Arguments Ok {A} a.
Arguments Raise {A} e.

Definition raises {A} (o : outcome A) : bool :=
  match o with Raise _ => true | Ok _ => false end.

(** Keyword-argument unpacking (a call with a double-starred argument):
    the argument must be a mapping. *)
Definition kwargs (v : value) : outcome (list (string * value)) :=
  match v with
  | VDict d => Ok d
  | _ => Raise (TypeError "argument after ** must be a mapping")
  end.

(** ASCII case mapping, as [str.lower] and [str.capitalize] act on ASCII
    text; bytes outside [A-Za-z] are left as they are. *)
Definition lower_char (c : ascii) : ascii :=
  let n := nat_of_ascii c in
  if andb (Nat.leb 65 n) (Nat.leb n 90) then ascii_of_nat (n + 32) else c.

Definition upper_char (c : ascii) : ascii :=
  let n := nat_of_ascii c in
  if andb (Nat.leb 97 n) (Nat.leb n 122) then ascii_of_nat (n - 32) else c.

Fixpoint lower (s : string) : string :=
  match s with
  | EmptyString => EmptyString
  | String c r => String (lower_char c) (lower r)
  end.

Definition capitalize (s : string) : string :=
  match s with
  | EmptyString => EmptyString
  | String c r => String (upper_char c) (lower r)
  end.

(** [x or ""] on an optional string. *)
Definition or_empty (o : option string) : string :=
  match o with
  | Some s => if String.eqb s "" then "" else s
  | None => ""
  end.

End Py.
Import Py.

(* ===================================================================== *)
(** ** The browser processor: instructions and commands *)
(* ===================================================================== *)

Module StaticWebBrowser.

(** [class BrowserInstructionType(StrEnum)].  [StrEnum] comes from
    [llmstack.common.blocks.base.schema], which is not among the sources;
    it is taken to be a string-valued [enum.Enum], whose members are
    looked up by their exact value. *)
Inductive BrowserInstructionType : Type :=
| CLICK | TYPE | WAIT | GOTO | COPY | TERMINATE | ENTER | SCROLLX | SCROLLY.

(** The [.value] of each member. *)
Definition value_of (t : BrowserInstructionType) : string :=
  match t with
  | CLICK => "Click"
  | TYPE => "Type"
  | WAIT => "Wait"
  | GOTO => "Goto"
  | COPY => "Copy"
  | TERMINATE => "Terminate"
  | ENTER => "Enter"
  | SCROLLX => "Scrollx"
  | SCROLLY => "Scrolly"
  end.

Definition members : list BrowserInstructionType :=
  [CLICK; TYPE; WAIT; GOTO; COPY; TERMINATE; ENTER; SCROLLX; SCROLLY].

(** The nine instruction names. *)
Definition instruction_names : list string := map value_of members.

(** Enum lookup by value, [BrowserInstructionType(s)]: the member whose
    value is exactly [s]. *)
Definition member_of_value (s : string) : option BrowserInstructionType :=
  find (fun t => String.eqb (value_of t) s) members.

(** [class BrowserInstruction(BaseModel)]; after validation [type] holds
    what [validate_type] returned, a plain string. *)
Record BrowserInstruction : Type := mkInstruction {
  type : string;
  selector : option string;
  data : option string
}.

(** [BrowserInstruction.validate_type]: [v.lower().capitalize()]. *)
Definition validate_type (v : string) : string := capitalize (lower v).

(** Validation of the [type] field.  [@field_validator("type")] has the
    default mode, "after": pydantic first validates the input against the
    annotation [BrowserInstructionType] and then hands the member to
    [validate_type]. *)
Definition validate_type_field (input : string) : outcome string :=
  match member_of_value input with
  | None =>
      Raise (ValidationError
        "Input should be 'Click', 'Type', 'Wait', 'Goto', 'Copy', 'Terminate', 'Enter', 'Scrollx' or 'Scrolly'")
  | Some m => Ok (validate_type (value_of m))
  end.

(** [BrowserInstruction(type=..., selector=..., data=...)] *)
Definition BrowserInstruction_validate
    (type_in : string) (selector_in data_in : option string)
    : outcome BrowserInstruction :=
  match validate_type_field type_in with
  | Raise e => Raise e
  | Ok t => Ok (mkInstruction t selector_in data_in)
  end.

(** [langrocks.common.models.web_browser.WebBrowserCommandType], the
    members the translation names. *)
Inductive WebBrowserCommandType : Type :=
| CMD_GOTO | CMD_CLICK | CMD_WAIT | CMD_COPY | CMD_SCROLL_X | CMD_SCROLL_Y
| CMD_TERMINATE | CMD_ENTER | CMD_TYPE.

(** What [command_type] receives: a command type, or the instruction's
    own type string when no branch of the chain matched. *)
Inductive command_type_arg : Type :=
| Command (c : WebBrowserCommandType)
| Untranslated (s : string).

Record WebBrowserCommand : Type := mkCommand {
  command_type : command_type_arg;
  cmd_data : string;
  cmd_selector : string
}.

(** [StaticWebBrowser._web_browser_instruction_to_command] *)
Definition _web_browser_instruction_to_command (instruction : BrowserInstruction)
    : WebBrowserCommand :=
  let instruction_type :=
    if String.eqb (type instruction) (value_of GOTO) then Command CMD_GOTO
    else if String.eqb (type instruction) (value_of CLICK) then Command CMD_CLICK
    else if String.eqb (type instruction) (value_of WAIT) then Command CMD_WAIT
    else if String.eqb (type instruction) (value_of COPY) then Command CMD_COPY
    else if String.eqb (type instruction) (value_of SCROLLX) then Command CMD_SCROLL_X
    else if String.eqb (type instruction) (value_of SCROLLY) then Command CMD_SCROLL_Y
    else if String.eqb (type instruction) (value_of TERMINATE) then Command CMD_TERMINATE
    else if String.eqb (type instruction) (value_of ENTER) then Command CMD_ENTER
    else if String.eqb (type instruction) (value_of TYPE) then Command CMD_TYPE
    else Untranslated (type instruction) in
  mkCommand instruction_type (or_empty (data instruction)) (or_empty (selector instruction)).

(** The command type that corresponds to an instruction type. *)
Definition corresponding (t : BrowserInstructionType) : WebBrowserCommandType :=
  match t with
  | CLICK => CMD_CLICK
  | TYPE => CMD_TYPE
  | WAIT => CMD_WAIT
  | GOTO => CMD_GOTO
  | COPY => CMD_COPY
  | TERMINATE => CMD_TERMINATE
  | ENTER => CMD_ENTER
  | SCROLLX => CMD_SCROLL_X
  | SCROLLY => CMD_SCROLL_Y
  end.

(** An optional string read as the claim reads it: the string itself,
    the empty string when absent. *)
Definition present_or_empty (o : option string) : string :=
  match o with Some s => s | None => "" end.

End StaticWebBrowser.

(* ===================================================================== *)
(** ** The processor runtime *)
(* ===================================================================== *)

Module ApiProcessorInterface.

(** Modelled from the spec: [BookKeepingData] of [llmstack.play.actor],
    which is not among the sources: "a record created once per invocation
    containing: resolved input, resolved config, produced output,
    session-data delta, a timestamp, a disable-history flag, and usage
    data".  The timestamp is a clock reading. *)
Record BookKeepingData : Type := mkBookKeepingData {
  bk_input : value;
  bk_config : value;
  bk_output : value;
  bk_session_data : value;
  bk_timestamp : Z;
  bk_disable_history : bool;
  bk_usage_data : value
}.

Definition set_usage_data (r : BookKeepingData) (u : value) : BookKeepingData :=
  mkBookKeepingData (bk_input r) (bk_config r) (bk_output r) (bk_session_data r)
                    (bk_timestamp r) (bk_disable_history r) u.

(** The identity handle [self._request_user]. *)
Record User : Type := mkUser { email : string; is_authenticated : bool }.

(** The attributes [__init__] sets on [self]. *)
Record actor : Type := mkActor {
  _id : string;
  _config : value;
  _input : value;
  _config_template : value;
  _input_template : value;
  _env : value;
  _session_id : string;
  _request_user : option User;
  _app_uuid : value;
  _input_fields : list value;
  _is_tool : bool;
  _session_enabled : bool;
  _output_template : value;
  _usage_data : value
}.

Definition with_input (a : actor) (v : value) : actor :=
  mkActor (_id a) (_config a) v (_config_template a) (_input_template a) (_env a)
          (_session_id a) (_request_user a) (_app_uuid a) (_input_fields a)
          (_is_tool a) (_session_enabled a) (_output_template a) (_usage_data a).

Definition with_config (a : actor) (v : value) : actor :=
  mkActor (_id a) v (_input a) (_config_template a) (_input_template a) (_env a)
          (_session_id a) (_request_user a) (_app_uuid a) (_input_fields a)
          (_is_tool a) (_session_enabled a) (_output_template a) (_usage_data a).

(** Calls that leave the actor: to the template hydrator, to the concrete
    processor's [process], to the output stream, to the session store, to
    the orchestrator, to the logger and to the database connection. *)
Inductive event : Type :=
| hydrate_input_call (template message : value)
| process_call (resolved_input resolved_config : value)
| stream_error (e : exn)
| save_app_session_data_call (session_id id : string) (session_data : value)
| stream_bookkeep (record : option BookKeepingData)
| on_stop_call
| get_app_session_data_call (session_id id : string)
| logger_exception (msg : string)
| db_connection_close.

(** The collaborators the runtime imports; none of them is among the
    sources, so each is a parameter. *)
Record world : Type := mkWorld {
  (** [llmstack.common.utils.liquid.hydrate_input(template, message)] *)
  hydrate_input : value -> value -> outcome value;
  (** the class [self._get_input_class()] called on keyword arguments *)
  input_class : list (string * value) -> outcome value;
  (** the class [self._get_configuration_class()] called on keyword arguments *)
  configuration_class : list (string * value) -> outcome value;
  (** [get_app_session_data(session_id, id)] *)
  get_app_session_data : string -> string -> outcome value;
  (** [save_app_session_data(session_id, id, session_data)] *)
  save_app_session_data : string -> string -> value -> outcome unit;
  (** [time.time()] *)
  time_time : Z;
  (** [AppSessionFiles.create_streaming_asset(metadata=, ref_id=)] *)
  create_streaming_asset : value -> string -> outcome value;
  (** [AppSessionFiles.create_from_data_uri(asset, metadata=, ref_id=)] *)
  create_from_data_uri : value -> value -> string -> outcome value;
  (** [AppSessionFiles.create_from_url(asset, metadata=, ref_id=)] *)
  create_from_url : value -> value -> string -> outcome value
}.

(** The methods a concrete processor overrides.  Each reads [self] and
    returns or raises. *)
Record processor : Type := mkProcessor {
  process : actor -> outcome value;
  get_bookkeeping_data : actor -> outcome (option BookKeepingData);
  session_data_to_persist : actor -> outcome value;
  usage_data : actor -> outcome value;
  disable_history : actor -> outcome bool;
  process_session_data : actor -> value -> outcome unit
}.

Definition MetricType_INVOCATION : value := VStr "INVOCATION".
Definition ProviderConfigSource_PLATFORM_DEFAULT : value := VStr "PLATFORM_DEFAULT".

(** The method bodies of [ApiProcessorInterface] itself. *)
Definition base_processor : processor := {|
  process := fun _ => Raise (mkExn "NotImplementedError" "");
  get_bookkeeping_data := fun _ => Ok None;
  session_data_to_persist := fun _ => Ok (VDict []);
  usage_data := fun self =>
    Ok (VDict [("credits", VInt 1000); ("usage_metrics", _usage_data self)]);
  disable_history := fun _ => Ok false;
  process_session_data := fun _ _ => Ok tt
|}.

(** *** The monad of actor methods *)

Record state : Type := mkState { self : actor; trace : list event }.

Definition M (A : Type) : Type := state -> outcome A * state.

Definition ret {A} (a : A) : M A := fun s => (Ok a, s).

Definition bind {A B} (c : M A) (k : A -> M B) : M B :=
  fun s => match c s with
           | (Ok a, s') => k a s'
           | (Raise e, s') => (Raise e, s')
           end.

Notation "x <- c ;; k" := (bind c (fun x => k))
  (at level 61, c at next level, right associativity).
Notation "c ;; k" := (bind c (fun _ => k))
  (at level 61, right associativity).

(** An outcome computed outside the actor. *)
Definition lift {A} (o : outcome A) : M A := fun s => (o, s).

Definition get_self : M actor := fun s => (Ok (self s), s).

Definition emit (ev : event) : M unit :=
  fun s => (Ok tt, mkState (self s) (trace s ++ [ev])%list).

Definition set_input (v : value) : M unit :=
  fun s => (Ok tt, mkState (with_input (self s) v) (trace s)).

Definition set_config (v : value) : M unit :=
  fun s => (Ok tt, mkState (with_config (self s) v) (trace s)).

(** [try: body except Exception as e: handler] *)
Definition try_except {A} (body : M A) (handler : exn -> M A) : M A :=
  fun s => match body s with
           | (Ok a, s') => (Ok a, s')
           | (Raise e, s') => handler e s'
           end.

Section Methods.

Variable w : world.
Variable p : processor.

(** A method of the concrete processor called on the current [self]. *)
Definition hook {A} (method : processor -> actor -> outcome A) : M A :=
  a <- get_self ;; lift (method p a).

Definition call_hydrate_input (template message : value) : M value :=
  emit (hydrate_input_call template message) ;;
  lift (hydrate_input w template message).

Definition call_process : M value :=
  a <- get_self ;;
  emit (process_call (_input a) (_config a)) ;;
  lift (process p a).

Definition call_save_app_session_data (sid id : string) (d : value) : M unit :=
  emit (save_app_session_data_call sid id d) ;;
  lift (save_app_session_data w sid id d).

(** The input class called on the unpacked mapping [v]. *)
Definition construct_input (v : value) : M value :=
  kw <- lift (kwargs v) ;; lift (input_class w kw).

Definition construct_config (v : value) : M value :=
  kw <- lift (kwargs v) ;; lift (configuration_class w kw).

(** [ApiProcessorInterface.__init__]: the attributes are set on a fresh
    object; [Actor.__init__] supplies [_id]. *)
Definition __init__
    (input config env : value) (session_id : string) (request_user : option User)
    (app_uuid : value) (input_fields : list value) (output_template : value)
    (id : string) (is_tool session_enabled : bool)
    : list event -> outcome actor * list event :=
  fun tr =>
  match kwargs config with Raise e => (Raise e, tr) | Ok ckw =>
  match configuration_class w ckw with Raise e => (Raise e, tr) | Ok c =>
  match kwargs input with Raise e => (Raise e, tr) | Ok ikw =>
  match input_class w ikw with Raise e => (Raise e, tr) | Ok i =>
  match configuration_class w ckw with Raise e => (Raise e, tr) | Ok ct =>
  match input_class w ikw with Raise e => (Raise e, tr) | Ok it =>
    let a := mkActor id c i ct it env session_id request_user app_uuid
                     input_fields is_tool session_enabled output_template
                     (VList [VList [VStr "promptly/*/*/*"; MetricType_INVOCATION;
                                    VList [ProviderConfigSource_PLATFORM_DEFAULT; VInt 1]]]) in
    let tr := (tr ++ [get_app_session_data_call session_id id])%list in
    match get_app_session_data w session_id id with
    | Raise e => (Raise e, tr)
    | Ok session_data =>
        if session_enabled then
          match process_session_data p a
                  (if truthy session_data then session_data else VDict []) with
          | Raise e => (Raise e, tr)
          | Ok _ => (Ok a, tr)
          end
        else (Ok a, tr)
    end
  end end end end end end.

(** The error payload built in the [except] clause of [input]. *)
Definition error_output (e : exn) : value :=
  VDict [("errors", VList [VStr (exn_str e)]);
         ("raw_response", VDict [("text", VStr (exn_str e));
                                 ("status_code", VInt 400)])].

(** Lines 327-352 of [input]: the three ways of resolving input and
    config. *)
Definition resolve (message : value) : M unit :=
  a <- get_self ;;
  if andb (_is_tool a) (Nat.eqb (length (_input_fields a)) 0) then
    i <- construct_input message ;;
    set_input i ;;
    c <- call_hydrate_input (_config_template a) message ;;
    set_config c
  else if _is_tool a then
    hydrated_input <- call_hydrate_input (_input_template a) message ;;
    i <- construct_input (if is_BaseModel hydrated_input
                          then model_dump hydrated_input else hydrated_input) ;;
    set_input i ;;
    c <- call_hydrate_input (_config_template a) message ;;
    set_config c
  else
    i <- (if truthy message
          then call_hydrate_input (_input_template a) message
          else ret (_input_template a)) ;;
    set_input i ;;
    c <- (if andb (truthy (_config a)) (truthy message)
          then call_hydrate_input (_config_template a) message
          else ret (_config_template a)) ;;
    set_config c.

(** Lines 327-353: the body of the [try] block. *)
Definition try_body (message : value) : M value :=
  resolve message ;; call_process.

(** Lines 326-365: the [try] block and its [except] clause; the result is
    the local variable [output]. *)
Definition attempt (message : value) : M value :=
  try_except
    (try_body message)
    (fun e =>
       emit (logger_exception "Error processing input") ;;
       emit (stream_error e) ;;
       ret (error_output e)).

(** Lines 367-395: bookkeeping, session save, emission, end of tool
    call. *)
Definition finish (output : value) : M unit :=
  bookkeeping_data <- hook get_bookkeeping_data ;;
  a <- get_self ;;
  let input_dict :=
    if andb (truthy (_input a)) (is_BaseModel (_input a))
    then model_dump (_input a) else _input a in
  let config_dict :=
    if andb (truthy (_config a)) (is_BaseModel (_config a))
    then model_dump (_config a) else _config a in
  let output_dict :=
    if truthy output
    then (if is_BaseModel output then model_dump output else output)
    else VDict [] in
  bookkeeping_data <-
    match bookkeeping_data with
    | None =>
        sd <- (if _session_enabled a then hook session_data_to_persist
               else ret (VDict [])) ;;
        dh <- hook disable_history ;;
        ret (Some (mkBookKeepingData input_dict config_dict output_dict sd
                                     (time_time w) dh (VDict [])))
    | Some r => ret (Some r)
    end ;;
  bookkeeping_data <-
    match bookkeeping_data with
    | Some r =>
        u <- hook usage_data ;;
        let r := set_usage_data r u in
        call_save_app_session_data (_session_id a) (_id a) (bk_session_data r) ;;
        ret (Some r)
    | None => ret None
    end ;;
  emit (stream_bookkeep bookkeeping_data) ;;
  if _is_tool a then emit on_stop_call else ret tt.

(** [ApiProcessorInterface.input] *)
Definition input (message : value) : M unit :=
  output <- attempt message ;;
  finish output.

(** Lines 314-320 of [validate_and_process]: the check applied to what
    [process] returned. *)
Definition validate_and_process_result (result : value) : M value :=
  if is_dict result then ret result
  else if is_ApiProcessorSchema result then ret (model_dump result)
  else
    emit (logger_exception "Invalid result type") ;;
    lift (Raise (Exception "Invalid result type")).

(** [asset.startswith(prefix)]: a method of strings only. *)
Definition startswith (asset : value) (prefix : string) : outcome bool :=
  match asset with
  | VStr s => Ok (String.prefix prefix s)
  | _ => Raise (AttributeError "object has no attribute 'startswith'")
  end.

(** [self._request_user.email] *)
Definition request_user_email (a : actor) : outcome string :=
  match _request_user a with
  | Some u => Ok (email u)
  | None => Raise (AttributeError "'NoneType' object has no attribute 'email'")
  end.

(** Lines 97-114, the body of the [try] block of
    [_upload_asset_from_url]: the value assigned to the local [asset]. *)
Definition create_asset (asset file_name mime_type : value) : M value :=
  a <- get_self ;;
  username <- lift (request_user_email a) ;;
  let asset_metadata := [("app_uuid", _app_uuid a); ("username", VStr username)] in
  let asset_metadata :=
    if truthy file_name
    then (asset_metadata ++ [("file_name", file_name)])%list else asset_metadata in
  let asset_metadata :=
    if truthy mime_type
    then (asset_metadata ++ [("mime_type", mime_type)])%list else asset_metadata in
  if negb (truthy asset) then
    lift (create_streaming_asset w (VDict asset_metadata) (_session_id a))
  else
    is_data_uri <- lift (startswith asset "data:") ;;
    if is_data_uri
    then lift (create_from_data_uri w asset (VDict asset_metadata) (_session_id a))
    else lift (create_from_url w asset (VDict asset_metadata) (_session_id a)).

(** [ApiProcessorInterface._upload_asset_from_url].  The [except] clause
    returns the local [asset], which no assignment has reached when the
    body raised. *)
Definition _upload_asset_from_url (asset file_name mime_type : value) : M value :=
  r <- try_except
         (created <- create_asset asset file_name mime_type ;; ret (inl created))
         (fun e =>
            emit (logger_exception (exn_str e)) ;;
            emit db_connection_close ;;
            ret (inr asset)) ;;
  match r with
  | inr returned => ret returned
  | inl asset =>
      emit db_connection_close ;;
      ret asset
  end.

End Methods.

(** *** Reading a trace *)

Definition bookkeep_records (tr : list event) : list (option BookKeepingData) :=
  flat_map (fun ev => match ev with stream_bookkeep r => [r] | _ => [] end) tr.


Definition error_signals (tr : list event) : list exn :=
  flat_map (fun ev => match ev with stream_error e => [e] | _ => [] end) tr.

Definition save_calls (tr : list event) : list (string * string * value) :=
  flat_map (fun ev => match ev with
                      | save_app_session_data_call sid id d => [(sid, id, d)]
                      | _ => []
                      end) tr.

Definition process_calls (tr : list event) : list (value * value) :=
  flat_map (fun ev => match ev with process_call i c => [(i, c)] | _ => [] end) tr.

Definition hydrations (tr : list event) : list (value * value) :=
  flat_map (fun ev => match ev with hydrate_input_call t m => [(t, m)] | _ => [] end) tr.

(** One call of [input] on an actor, observed from an empty trace. *)
Definition run_input (w : world) (p : processor) (message : value) (a : actor)
    : outcome unit * state :=
  input w p message (mkState a []).

Definition events_of_input (w : world) (p : processor) (message : value) (a : actor)
    : list event :=
  trace (snd (run_input w p message a)).

Definition actor_after_input (w : world) (p : processor) (message : value) (a : actor)
    : actor :=
  self (snd (run_input w p message a)).

(** A sequence of calls on one actor.  What the collaborators and the
    hooks answer may differ from call to call; a call that raised leaves
    the actor as it was when the exception left [input]. *)
Record call : Type := mkCall {
  call_world : world;
  call_processor : processor;
  call_message : value
}.

Fixpoint run_inputs (calls : list call) (a : actor) : actor :=
  match calls with
  | [] => a
  | c :: rest =>
      run_inputs rest
        (actor_after_input (call_world c) (call_processor c) (call_message c) a)
  end.

(** Two actors that differ at most in the resolved input and config. *)
Definition same_but_resolved (a b : actor) : Prop :=
  b = with_config (with_input a (_input b)) (_config b).




(** What the [try] block leaves in [output], and what its [except]
    clause adds to the trace. *)
Definition output_of (r : outcome value) : value :=
  match r with Ok out => out | Raise e => error_output e end.

Definition signals_of (r : outcome value) : list event :=
  match r with
  | Ok _ => []
  | Raise e => [logger_exception "Error processing input"; stream_error e]
  end.


(** A computation that only appends to the trace and never reads it:
    run from any trace, it does what it does from the empty one. *)
Definition framed {A} (c : M A) : Prop :=
  forall a tr,
    c (mkState a tr) =
      (fst (c (mkState a [])),
       mkState (self (snd (c (mkState a []))))
               (tr ++ trace (snd (c (mkState a []))))%list).

(** *** Sample collaborators, processors and actors *)

Definition has_key (k : string) (kw : list (string * value)) : bool :=
  existsb (fun kv => String.eqb (fst kv) k) kw.

(** A hydrator that finds no placeholder, classes that accept every
    mapping, a session store that accepts every save. *)
Definition plain_world : world := {|
  hydrate_input := fun template _ => Ok template;
  input_class := fun kw => Ok (VModel ApiProcessorSchema kw);
  configuration_class := fun kw => Ok (VModel ApiProcessorSchema kw);
  get_app_session_data := fun _ _ => Ok VNone;
  save_app_session_data := fun _ _ _ => Ok tt;
  time_time := 0%Z;
  create_streaming_asset := fun _ _ => Ok (VModel PlainBaseModel [("objref", VStr "objref://sessionfiles/1")]);
  create_from_data_uri := fun _ _ _ => Ok (VModel PlainBaseModel [("objref", VStr "objref://sessionfiles/2")]);
  create_from_url := fun _ _ _ => Ok (VModel PlainBaseModel [("objref", VStr "objref://sessionfiles/3")])
|}.

(** The same, with a session store that is down. *)
Definition save_fails_world : world := {|
  hydrate_input := hydrate_input plain_world;
  input_class := input_class plain_world;
  configuration_class := configuration_class plain_world;
  get_app_session_data := get_app_session_data plain_world;
  save_app_session_data := fun _ _ _ => Raise (mkExn "ConnectionError" "session store unavailable");
  time_time := time_time plain_world;
  create_streaming_asset := create_streaming_asset plain_world;
  create_from_data_uri := create_from_data_uri plain_world;
  create_from_url := create_from_url plain_world
|}.

(** The same as [plain_world], with an input class that declares [url]
    as a required field, as [StaticWebBrowserInput] does. *)
Definition url_required_world : world := {|
  hydrate_input := hydrate_input plain_world;
  input_class := fun kw =>
    if has_key "url" kw then Ok (VModel ApiProcessorSchema kw)
    else Raise (ValidationError "url: Field required");
  configuration_class := configuration_class plain_world;
  get_app_session_data := get_app_session_data plain_world;
  save_app_session_data := save_app_session_data plain_world;
  time_time := time_time plain_world;
  create_streaming_asset := create_streaming_asset plain_world;
  create_from_data_uri := create_from_data_uri plain_world;
  create_from_url := create_from_url plain_world
|}.

(** The same as [plain_world], with an asset store that is down. *)
Definition asset_store_fails_world : world := {|
  hydrate_input := hydrate_input plain_world;
  input_class := input_class plain_world;
  configuration_class := configuration_class plain_world;
  get_app_session_data := get_app_session_data plain_world;
  save_app_session_data := save_app_session_data plain_world;
  time_time := time_time plain_world;
  create_streaming_asset := fun _ _ => Raise (Exception "asset store unavailable");
  create_from_data_uri := fun _ _ _ => Raise (Exception "asset store unavailable");
  create_from_url := fun _ _ _ => Raise (Exception "asset store unavailable")
|}.

Definition with_process (f : actor -> outcome value) (p : processor) : processor := {|
  process := f;
  get_bookkeeping_data := get_bookkeeping_data p;
  session_data_to_persist := session_data_to_persist p;
  usage_data := usage_data p;
  disable_history := disable_history p;
  process_session_data := process_session_data p
|}.

(** A processor whose [process] returns a dictionary. *)
Definition text_processor : processor :=
  with_process (fun _ => Ok (VDict [("text", VStr "done")])) base_processor.

(** A processor whose [process] raises. *)
Definition refused_processor : processor :=
  with_process (fun _ => Raise (Exception "connection refused")) base_processor.

(** A processor whose [process] returns a string. *)
Definition string_processor : processor :=
  with_process (fun _ => Ok (VStr "ok")) base_processor.

(** A processor that persists a session delta. *)
Definition remembering_processor : processor := {|
  process := process text_processor;
  get_bookkeeping_data := get_bookkeeping_data base_processor;
  session_data_to_persist := fun _ => Ok (VDict [("visited", VInt 1)]);
  usage_data := usage_data base_processor;
  disable_history := disable_history base_processor;
  process_session_data := process_session_data base_processor
|}.

Definition custom_record : BookKeepingData :=
  mkBookKeepingData (VDict []) (VDict []) (VDict [("text", VStr "custom")])
                    (VDict [("cursor", VInt 7)]) 0%Z false (VDict []).

(** A processor that overrides [get_bookkeeping_data], and whose
    [process] raises. *)
Definition custom_record_processor : processor := {|
  process := process refused_processor;
  get_bookkeeping_data := fun _ => Ok (Some custom_record);
  session_data_to_persist := session_data_to_persist remembering_processor;
  usage_data := usage_data base_processor;
  disable_history := disable_history base_processor;
  process_session_data := process_session_data base_processor
|}.

Definition example_input : value := VDict [("url", VStr "https://example.com")].

(** The message of a tool call. *)
Definition tool_message : list (string * value) :=
  [("url", VStr "https://x.test"); ("instructions", VList [])].

Definition sample_actor (is_tool session_enabled : bool) : actor := {|
  _id := "processor-1";
  _config := VModel ApiProcessorSchema [];
  _input := VModel ApiProcessorSchema [("url", VStr "https://example.com")];
  _config_template := VModel ApiProcessorSchema [];
  _input_template := VModel ApiProcessorSchema [("url", VStr "https://example.com")];
  _env := VDict [];
  _session_id := "session-1";
  _request_user := Some (mkUser "user@example.com" true);
  _app_uuid := VStr "app-1";
  _input_fields := [];
  _is_tool := is_tool;
  _session_enabled := session_enabled;
  _output_template := VDict [];
  _usage_data := VList []
|}.

End ApiProcessorInterface.

(* ===================================================================== *)
(** ** Further readings of a call *)
(* ===================================================================== *)

Module Observations.

Import ApiProcessorInterface.


Definition on_stop_count (tr : list event) : nat :=
  length (flat_map (fun ev => match ev with on_stop_call => [tt] | _ => [] end) tr).

Definition db_close_count (tr : list event) : nat :=
  length (flat_map (fun ev => match ev with db_connection_close => [tt] | _ => [] end) tr).

(** What the end of a tool call adds to the trace (lines 393-395). *)
Definition end_of_call (a : actor) : list event :=
  if _is_tool a then [on_stop_call] else [].

End Observations.

(* ===================================================================== *)
(** ** Operations on containers *)
(* ===================================================================== *)

Module PyOps.

(** Sequencing of outcomes. *)
Definition obind {A B} (o : outcome A) (k : A -> outcome B) : outcome B :=
  match o with Ok a => k a | Raise e => Raise e end.

Definition KeyError (key : string) : exn := mkExn "KeyError" key.
Definition IndexError (msg : string) : exn := mkExn "IndexError" msg.

(** Dictionaries as association lists: the entry of a key is the first
    one with that key; a well-formed dictionary has one at most. *)
Fixpoint lookup (k : string) (d : list (string * value)) : option value :=
  match d with
  | [] => None
  | (k', v) :: rest => if String.eqb k' k then Some v else lookup k rest
  end.

(** [del d[k]]: no entry of key [k] is left. *)
Definition remove (k : string) (d : list (string * value)) : list (string * value) :=
  filter (fun kv => negb (String.eqb (fst kv) k)) d.

(** [d[k] = v]: an existing key keeps its place, a new one goes last. *)
Fixpoint store (k : string) (v : value) (d : list (string * value))
    : list (string * value) :=
  match d with
  | [] => [(k, v)]
  | (k', v') :: rest =>
      if String.eqb k' k then (k, v) :: rest else (k', v') :: store k v rest
  end.

Definition is_substring (k s : string) : bool :=
  match String.index 0 k s with Some _ => true | None => false end.

Definition is_str (k : string) (v : value) : bool :=
  match v with VStr s => String.eqb s k | _ => false end.

(** [k in v] for a string [k]: a key of a dictionary, an element of a
    list, a substring of a string; a pydantic model iterates over pairs,
    none of which is a string; the other objects are not iterable. *)
Definition contains (k : string) (v : value) : outcome bool :=
  match v with
  | VDict d => Ok (match lookup k d with Some _ => true | None => false end)
  | VList l => Ok (existsb (is_str k) l)
  | VStr s => Ok (is_substring k s)
  | VModel _ _ => Ok false
  | VNone => Raise (TypeError "argument of type 'NoneType' is not iterable")
  | VBool _ => Raise (TypeError "argument of type 'bool' is not iterable")
  | VInt _ => Raise (TypeError "argument of type 'int' is not iterable")
  end.

(** [v[k]] for a string [k]. *)
Definition getitem (v : value) (k : string) : outcome value :=
  match v with
  | VDict d => match lookup k d with
               | Some x => Ok x
               | None => Raise (KeyError k)
               end
  | VList _ => Raise (TypeError "list indices must be integers or slices, not str")
  | VStr _ => Raise (TypeError "string indices must be integers, not 'str'")
  | _ => Raise (TypeError "object is not subscriptable")
  end.

(** [v.pop(k)] for a string [k]: the container after the call. *)
Definition pop (v : value) (k : string) : outcome value :=
  match v with
  | VDict d => match lookup k d with
               | Some _ => Ok (VDict (remove k d))
               | None => Raise (KeyError k)
               end
  | VList _ => Raise (TypeError "'str' object cannot be interpreted as an integer")
  | _ => Raise (AttributeError "object has no attribute 'pop'")
  end.

(** [v[k] = x] for a string [k]: the container after the assignment. *)
Definition setitem (v : value) (k : string) (x : value) : outcome value :=
  match v with
  | VDict d => Ok (VDict (store k x d))
  | VList _ => Raise (TypeError "list indices must be integers or slices, not str")
  | _ => Raise (TypeError "object does not support item assignment")
  end.

(** [if k in v: v.pop(k)] *)
Definition discard (k : string) (v : value) : outcome value :=
  obind (contains k v) (fun present => if present then pop v k else Ok v).

(** [v.attr] on an object with attributes; strings, numbers and
    containers have no attribute of the names the runtime reads. *)
Definition getattr (v : value) (attr : string) : outcome value :=
  match v with
  | VModel _ fs => match lookup attr fs with
                   | Some x => Ok x
                   | None => Raise (AttributeError ("object has no attribute '" ++ attr ++ "'"))
                   end
  | VStr _ => Raise (AttributeError ("'str' object has no attribute '" ++ attr ++ "'"))
  | _ => Raise (AttributeError ("object has no attribute '" ++ attr ++ "'"))
  end.

(** Text made of ASCII characters only, on which [lower] and
    [capitalize] are Python's. *)
Fixpoint ascii_only (s : string) : bool :=
  match s with
  | EmptyString => true
  | String c r => andb (Nat.ltb (nat_of_ascii c) 128) (ascii_only r)
  end.

End PyOps.

(* ===================================================================== *)
(** ** Session assets *)
(* ===================================================================== *)

Module SessionAssets.

Import ApiProcessorInterface PyOps.

Section Assets.

Variable w : world.

(** [AssetStream(asset)] of [llmstack.assets.stream], a parameter. *)
Variable AssetStream : value -> outcome value.

(** [AssetViewSet().get_asset_data(objref, user, session_id,
    include_data=, include_name=)] of [llmstack.assets.apis], a
    parameter. *)
Variable get_asset_data :
  value -> option User -> string -> bool -> bool -> outcome value.

(** [ApiProcessorInterface._create_asset_stream] *)
Definition _create_asset_stream (mime_type file_name : value) : M value :=
  asset <- _upload_asset_from_url w VNone file_name mime_type ;;
  if truthy asset then lift (AssetStream asset) else ret VNone.

(** [ApiProcessorInterface._get_session_asset]: [include_data] and
    [include_name] are passed on. *)
Definition _get_session_asset (objref : value) (include_data include_name : bool)
    : M value :=
  a <- get_self ;;
  lift (get_asset_data objref (_request_user a) (_session_id a)
                       include_data include_name).

(** [ApiProcessorInterface._get_session_asset_data_uri] *)
Definition _get_session_asset_data_uri (objref : value) (include_name : bool)
    : M value :=
  is_objref <- lift (startswith objref "objref://") ;;
  if negb is_objref then ret objref
  else
    asset <- _get_session_asset objref true include_name ;;
    has_uri <- (if truthy asset then lift (contains "data_uri" asset) else ret false) ;;
    if has_uri then lift (getitem asset "data_uri") else ret objref.

(** Lines 239-245 of [StaticWebBrowser.process]: the reference stored in
    [content.screenshot].  [screenshot] is [browser_response.screenshot],
    the raw bytes; [name] is the fresh [uuid4] and [encoded] the base-64
    text of the bytes. *)
Definition screenshot_reference (screenshot name encoded : string) : M value :=
  screenshot_asset <-
    (if negb (String.eqb screenshot "")
     then _upload_asset_from_url w
            (VStr ("data:image/png;name=" ++ name ++ ";base64," ++ encoded))
            VNone (VStr "image/png")
     else ret VNone) ;;
  if truthy screenshot_asset then lift (getattr screenshot_asset "objref")
  else ret VNone.

(** Lines 251-260 of [StaticWebBrowser.process]: the reference stored as
    the data of a downloaded file. *)
Definition download_reference (mime_type name encoded : string) : M value :=
  file_data <-
    _upload_asset_from_url w
      (VStr ("data:" ++ mime_type ++ ";name=" ++ name ++ ";base64," ++ encoded))
      VNone (VStr mime_type) ;;
  lift (getattr file_data "objref").

End Assets.

End SessionAssets.

(* ===================================================================== *)
(** ** Output schemas *)
(* ===================================================================== *)

Module OutputSchema.

Import PyOps.

(** [l[e]] as an index into a list of length [len]: integers and
    booleans index, negative integers count from the end. *)
Definition list_index (e : value) (len : nat) : outcome nat :=
  match e with
  | VInt i =>
      let i' := if (i <? 0)%Z then (i + Z.of_nat len)%Z else i in
      if andb (0 <=? i')%Z (i' <? Z.of_nat len)%Z then Ok (Z.to_nat i')
      else Raise (IndexError "list index out of range")
  | VBool b =>
      let i := if b then 1 else 0 in
      if Nat.ltb i len then Ok i
      else Raise (IndexError "list index out of range")
  | _ => Raise (TypeError "list indices must be integers or slices")
  end.

Fixpoint replace_nth (n : nat) (x : value) (l : list value) : list value :=
  match l, n with
  | [], _ => []
  | _ :: rest, 0 => x :: rest
  | y :: rest, S n' => y :: replace_nth n' x rest
  end.

(** The loop of lines 198-200 over a dictionary of properties: each
    property loses its [title]. *)
Fixpoint strip_titles (properties : list (string * value))
    : outcome (list (string * value)) :=
  match properties with
  | [] => Ok []
  | (property, spec) :: rest =>
      obind (discard "title" spec) (fun spec' =>
      obind (strip_titles rest) (fun rest' =>
      Ok ((property, spec') :: rest')))
  end.

(** The same loop when [schema["properties"]] is a list: the [j]-th
    round reads the [j]-th element and uses it as an index. *)
Fixpoint strip_titles_list (rounds j : nat) (current : list value)
    : outcome (list value) :=
  match rounds with
  | 0 => Ok current
  | S rounds' =>
      obind (list_index (nth j current VNone) (length current)) (fun idx =>
      obind (discard "title" (nth idx current VNone)) (fun target' =>
      strip_titles_list rounds' (S j) (replace_nth idx target' current)))
  end.

(** Lines 198-200 of [get_output_schema], for whatever
    [schema["properties"]] is. *)
Definition strip_property_titles (properties : value) : outcome value :=
  match properties with
  | VDict d => obind (strip_titles d) (fun d' => Ok (VDict d'))
  | VList l => obind (strip_titles_list (length l) 0 l) (fun l' => Ok (VList l'))
  | VStr s =>
      if String.eqb s "" then Ok properties
      else Raise (TypeError "string indices must be integers, not 'str'")
  | VModel _ fs =>
      match fs with
      | [] => Ok properties
      | _ => Raise (TypeError "object is not subscriptable")
      end
  | VNone => Raise (TypeError "'NoneType' object is not iterable")
  | VBool _ => Raise (TypeError "'bool' object is not iterable")
  | VInt _ => Raise (TypeError "'int' object is not iterable")
  end.

(** [ApiProcessorInterface.get_output_schema], from the document
    [json.loads(cls._get_output_schema())] to the document handed to
    [json.dumps]. *)
Definition get_output_schema (parsed : value) : outcome value :=
  obind (discard "description" parsed) (fun schema =>
  obind (discard "title" schema) (fun schema =>
  obind (getitem schema "properties") (fun properties =>
  obind (discard "api_response" properties) (fun properties =>
  obind (strip_property_titles properties) (fun properties =>
  setitem schema "properties" properties))))).

(** [d.keys()] *)
Definition keys (v : value) : outcome (list string) :=
  match v with
  | VDict d => Ok (map fst d)
  | _ => Raise (AttributeError "object has no attribute 'keys'")
  end.

(** The loop of lines 207-211 of [get_output_ui_schema]. *)
Fixpoint add_widgets (names : list string) (properties ui_schema : value)
    : outcome value :=
  match names with
  | [] => Ok ui_schema
  | key :: rest =>
      obind (getitem properties key) (fun spec =>
      obind (contains "widget" spec) (fun has_widget =>
      obind (if has_widget
             then obind (getitem spec "widget") (fun widget =>
                  setitem ui_schema key (VDict [("ui:widget", widget)]))
             else Ok ui_schema) (fun ui_schema =>
      add_widgets rest properties ui_schema)))
  end.

(** [ApiProcessorInterface.get_output_ui_schema]: [ui_schema] is what
    [cls._get_output_ui_schema()] returned and [parsed] is
    [json.loads(cls._get_output_schema())]. *)
Definition get_output_ui_schema (ui_schema parsed : value) : outcome value :=
  obind (getitem parsed "properties") (fun properties =>
  obind (keys properties) (fun names =>
  obind (add_widgets names properties ui_schema) (fun ui_schema =>
  setitem ui_schema "ui:submitButtonOptions" (VDict [("norender", VBool true)])))).

(** The [widget] keyword of the property [name], when the property is
    a mapping that has one. *)
Definition widget_of (properties : list (string * value)) (name : string)
    : option value :=
  match lookup name properties with
  | Some (VDict spec) => lookup "widget" spec
  | _ => None
  end.

(** Every property is described by a mapping, as in the schemas pydantic
    generates. *)
Definition specs_are_mappings (properties : list (string * value)) : Prop :=
  Forall (fun kv => is_dict (snd kv) = true) properties.

End OutputSchema.

(* ===================================================================== *)
(** ** More sample collaborators *)
(* ===================================================================== *)

Module Samples.

Import ApiProcessorInterface.

(** A tool actor that declares an input field. *)
Definition fields_actor : actor := {|
  _id := "processor-1";
  _config := VModel ApiProcessorSchema [];
  _input := VModel ApiProcessorSchema [("url", VStr "https://example.com")];
  _config_template := VModel ApiProcessorSchema [];
  _input_template := VModel ApiProcessorSchema [("url", VStr "{{url}}")];
  _env := VDict [];
  _session_id := "session-1";
  _request_user := Some (mkUser "user@example.com" true);
  _app_uuid := VStr "app-1";
  _input_fields := [VDict [("name", VStr "url"); ("type", VStr "string")]];
  _is_tool := true;
  _session_enabled := true;
  _output_template := VDict [];
  _usage_data := VList []
|}.

(** The same as [plain_world], with a hydrator that fails on every
    template. *)
Definition hydration_fails_world : world := {|
  hydrate_input := fun _ _ => Raise (Exception "undefined variable");
  input_class := input_class plain_world;
  configuration_class := configuration_class plain_world;
  get_app_session_data := get_app_session_data plain_world;
  save_app_session_data := save_app_session_data plain_world;
  time_time := time_time plain_world;
  create_streaming_asset := create_streaming_asset plain_world;
  create_from_data_uri := create_from_data_uri plain_world;
  create_from_url := create_from_url plain_world
|}.

(** An asset store that answers every reference with the same data URI. *)
Definition stored_asset : list (string * value) :=
  [("name", VStr "logo.png"); ("data_uri", VStr "data:image/png;base64,AAAA")].

Definition sample_get_asset_data
    (objref : value) (user : option User) (session_id : string)
    (include_data include_name : bool) : outcome value :=
  Ok (VDict stored_asset).

Definition sample_AssetStream (asset : value) : outcome value :=
  Ok (VModel PlainBaseModel [("asset", asset)]).

Definition example_properties : list (string * value) :=
  [("text", VDict [("title", VStr "Text"); ("type", VStr "string");
                   ("widget", VStr "textarea")]);
   ("api_response", VDict [("type", VStr "object")]);
   ("steps", VDict [("title", VStr "Steps"); ("type", VStr "array")])].

Definition example_document : list (string * value) :=
  [("title", VStr "StaticWebBrowserOutput");
   ("description", VStr "Browse a given URL");
   ("type", VStr "object");
   ("properties", VDict example_properties)].

Definition example_ui_schema : list (string * value) :=
  [("text", VDict [("ui:widget", VStr "text")]);
   ("ui:order", VList [VStr "text"; VStr "steps"])].

End Samples.

(* ===================================================================== *)
(** ** Properties of the browser processor *)
(* ===================================================================== *)

Section BrowserProperties.

Import StaticWebBrowser.

Lemma or_empty_present (o : option string) : or_empty o = present_or_empty o.
Proof.
  destruct o as [s|]; simpl; [|reflexivity].
  destruct (String.eqb s "") eqn:E; [|reflexivity].
  apply String.eqb_eq in E. now subst.
Qed.

(** Every instruction name is already in the form [validate_type]
    produces. *)
Lemma validate_type_value_of (t : BrowserInstructionType) :
  validate_type (value_of t) = value_of t.
Proof. destruct t; reflexivity. Qed.

Lemma member_of_value_value_of (t : BrowserInstructionType) :
  member_of_value (value_of t) = Some t.
Proof. destruct t; reflexivity. Qed.

Lemma member_of_value_sound (s : string) (t : BrowserInstructionType) :
  member_of_value s = Some t -> value_of t = s.
Proof.
  unfold member_of_value. intros H.
  apply find_some in H. destruct H as [_ H]. now apply String.eqb_eq in H.
Qed.

(** The field is accepted exactly when the input is one of the nine names
    as written, and the stored type is then the input itself: the
    validator only ever sees a member's value. *)
Lemma validate_type_field_accepts (s : string) :
  In s instruction_names -> validate_type_field s = Ok s.
Proof.
  unfold instruction_names, validate_type_field. intros Hin.
  apply in_map_iff in Hin. destruct Hin as [t [<- _]].
  now rewrite member_of_value_value_of, validate_type_value_of.
Qed.

Lemma validate_type_field_rejects (s : string) :
  ~ In s instruction_names -> raises (validate_type_field s) = true.
Proof.
  unfold validate_type_field. intros Hnot.
  destruct (member_of_value s) as [m|] eqn:E; [|reflexivity].
  exfalso. apply Hnot. apply member_of_value_sound in E. subst s.
  unfold instruction_names. apply in_map. destruct m; simpl; tauto.
Qed.

(** C8. For a browser instruction whose type is the name of one of the
    nine declared instruction types, the translation returns the command
    whose command type is the corresponding [WebBrowserCommandType],
    whose data is the instruction's data (the empty string when absent)
    and whose selector is the instruction's selector (the empty string
    when absent). *)
Theorem instruction_to_command_declared_types
    (instruction : BrowserInstruction) (t : BrowserInstructionType)
    (Htype : type instruction = value_of t) :
  _web_browser_instruction_to_command instruction =
    mkCommand (Command (corresponding t))
              (present_or_empty (data instruction))
              (present_or_empty (selector instruction)).
Proof.
  unfold _web_browser_instruction_to_command.
  rewrite Htype, !or_empty_present.
  destruct t; reflexivity.
Qed.

Lemma instruction_to_command_declared_types_witness :
  _web_browser_instruction_to_command (mkInstruction "Scrollx" None (Some "120")) =
    mkCommand (Command CMD_SCROLL_X) "120" "".
Proof.
  exact (instruction_to_command_declared_types
           (mkInstruction "Scrollx" None (Some "120")) SCROLLX eq_refl).
Defined.

(** C10, evaluated on the code.  The upper-case and the lower-case
    spelling of [Click] both normalise to an instruction name, yet
    neither is accepted: the enum check comes first and knows the names
    only as written, so [validate_type] never sees them. *)
Theorem type_field_is_case_sensitive :
  validate_type "CLICK" = "Click" /\
  validate_type "click" = "Click" /\
  In "Click" instruction_names /\
  raises (BrowserInstruction_validate "CLICK" None None) = true /\
  raises (BrowserInstruction_validate "click" None None) = true /\
  BrowserInstruction_validate "Click" None None = Ok (mkInstruction "Click" None None).
Proof.
  repeat split; try reflexivity. simpl. tauto.
Qed.

End BrowserProperties.

(* ===================================================================== *)
(** ** Properties of the runtime *)
(* ===================================================================== *)

Section RuntimeProperties.

Import ApiProcessorInterface.

(** *** Computations are framed *)

Lemma framed_ret {A} (x : A) : framed (ret x).
Proof. intros a tr. cbn. now rewrite app_nil_r. Qed.

Lemma framed_lift {A} (o : outcome A) : framed (lift o).
Proof. intros a tr. cbn. now rewrite app_nil_r. Qed.

Lemma framed_get_self : framed get_self.
Proof. intros a tr. cbn. now rewrite app_nil_r. Qed.

Lemma framed_emit (ev : event) : framed (emit ev).
Proof. intros a tr. reflexivity. Qed.

Lemma framed_set_input (v : value) : framed (set_input v).
Proof. intros a tr. cbn. now rewrite app_nil_r. Qed.

Lemma framed_set_config (v : value) : framed (set_config v).
Proof. intros a tr. cbn. now rewrite app_nil_r. Qed.

Lemma framed_bind {A B} (c : M A) (k : A -> M B) :
  framed c -> (forall x, framed (k x)) -> framed (bind c k).
Proof.
  intros Hc Hk a tr. unfold bind.
  rewrite (Hc a tr).
  destruct (c (mkState a [])) as [[x|e] [a1 l1]]; cbn.
  - rewrite (Hk x a1 (tr ++ l1)%list), (Hk x a1 l1). cbn.
    now rewrite app_assoc.
  - reflexivity.
Qed.

Lemma framed_try_except {A} (body : M A) (handler : exn -> M A) :
  framed body -> (forall e, framed (handler e)) -> framed (try_except body handler).
Proof.
  intros Hb Hh a tr. unfold try_except.
  rewrite (Hb a tr).
  destruct (body (mkState a [])) as [[x|e] [a1 l1]]; cbn.
  - reflexivity.
  - rewrite (Hh e a1 (tr ++ l1)%list), (Hh e a1 l1). cbn.
    now rewrite app_assoc.
Qed.

Lemma framed_if {A} (b : bool) (c1 c2 : M A) :
  framed c1 -> framed c2 -> framed (if b then c1 else c2).
Proof. now destruct b. Qed.

Create HintDb framed.

#[local] Hint Resolve framed_ret framed_lift framed_get_self framed_emit
  framed_set_input framed_set_config : framed.

Ltac framed_step :=
  match goal with
  | |- framed (bind _ _) => apply framed_bind; [|intro]
  | |- framed (try_except _ _) => apply framed_try_except; [|intro]
  | |- framed (if _ then _ else _) => apply framed_if
  | |- framed (match ?x with _ => _ end) => destruct x
  | |- framed _ => solve [auto with framed]
  end.

Ltac framed_tac := repeat framed_step.

Variable w : world.
Variable p : processor.

Lemma framed_hook {A} (method : processor -> actor -> outcome A) :
  framed (hook p method).
Proof. unfold hook. framed_tac. Qed.

Lemma framed_call_hydrate_input (t m : value) : framed (call_hydrate_input w t m).
Proof. unfold call_hydrate_input. framed_tac. Qed.

Lemma framed_call_process : framed (call_process p).
Proof. unfold call_process. framed_tac. Qed.

Lemma framed_call_save (sid id : string) (d : value) :
  framed (call_save_app_session_data w sid id d).
Proof. unfold call_save_app_session_data. framed_tac. Qed.

Lemma framed_construct_input (v : value) : framed (construct_input w v).
Proof. unfold construct_input. framed_tac. Qed.

#[local] Hint Resolve framed_hook framed_call_hydrate_input framed_call_process
  framed_call_save framed_construct_input : framed.

Lemma framed_resolve (m : value) : framed (resolve w m).
Proof. unfold resolve. framed_tac. Qed.

Lemma framed_attempt (m : value) : framed (attempt w p m).
Proof.
  unfold attempt, try_body. pose proof (framed_resolve m). framed_tac.
Qed.

Lemma framed_finish (output : value) : framed (finish w p output).
Proof. unfold finish. framed_tac. Qed.

Lemma framed_create_asset (asset file_name mime_type : value) :
  framed (create_asset w asset file_name mime_type).
Proof. unfold create_asset. framed_tac. Qed.

(** *** One call of [input], step by step *)

Ltac unfold_runtime :=
  unfold input, attempt, try_body, finish, resolve, construct_input,
    call_hydrate_input, call_process, call_save_app_session_data, hook,
    try_except, bind, ret, lift, get_self, emit, set_input, set_config in *.

(** Case analysis on an answer of a collaborator or of a hook, innermost
    first. *)
Ltac case_atom :=
  match goal with
  | |- context [match ?x with _ => _ end] =>
      lazymatch x with
      | context [match _ with _ => _ end] => fail
      | _ => destruct x eqn:?
      end
  end.

Ltac run_cases := unfold_runtime; cbn; repeat (case_atom; cbn in * ).

(** The [except] clause catches whatever the [try] block raises. *)
Lemma attempt_outcome (m : value) (s : state) :
  attempt w p m s =
    match try_body w p m s with
    | (Ok out, s') => (Ok out, s')
    | (Raise e, s') =>
        (Ok (error_output e),
         mkState (self s')
                 (trace s' ++ [logger_exception "Error processing input";
                               stream_error e])%list)
    end.
Proof.
  unfold attempt, try_except.
  destruct (try_body w p m s) as [[out|e] s']; [reflexivity|].
  cbn. now rewrite <- app_assoc.
Qed.

(** The [try] block talks to the hydrator and to [process] only, and
    assigns only the resolved input and config. *)
Lemma try_body_quiet (m : value) (a : actor) :
  let s' := snd (try_body w p m (mkState a [])) in
  bookkeep_records (trace s') = [] /\
  error_signals (trace s') = [] /\
  save_calls (trace s') = [] /\
  same_but_resolved a (self s').
Proof.
  unfold same_but_resolved. destruct a.
  run_cases; repeat split; reflexivity.
Qed.

(** The bookkeeping stage assigns nothing. *)
Lemma finish_self (output : value) (s : state) :
  self (snd (finish w p output s)) = self s.
Proof. destruct s as [a tr]. run_cases; reflexivity. Qed.

(** A call of [input] is its [try] block, then the [except] clause when
    the block raised, then the bookkeeping stage on the actor the block
    left. *)
Lemma input_split (m : value) (a : actor) :
  let r1 := try_body w p m (mkState a []) in
  let r2 := finish w p (output_of (fst r1)) (mkState (self (snd r1)) []) in
  run_input w p m a =
    (fst r2,
     mkState (self (snd r1))
             (trace (snd r1) ++ signals_of (fst r1) ++ trace (snd r2))%list).
Proof.
  cbv zeta. unfold run_input, input, bind. rewrite attempt_outcome.
  destruct (try_body w p m (mkState a [])) as [[out|e] [a1 l1]];
    unfold output_of, signals_of, fst, snd, self, trace.
  - rewrite framed_finish.
    now rewrite (finish_self out (mkState a1 [])).
  - rewrite framed_finish.
    rewrite (finish_self (error_output e) (mkState a1 [])).
    unfold self. now rewrite <- !app_assoc.
Qed.

Lemma events_of_input_split (m : value) (a : actor) :
  let r1 := try_body w p m (mkState a []) in
  events_of_input w p m a =
    (trace (snd r1) ++ signals_of (fst r1) ++
     trace (snd (finish w p (output_of (fst r1)) (mkState (self (snd r1)) []))))%list.
Proof. unfold events_of_input. now rewrite input_split. Qed.

Lemma actor_after_input_try_body (m : value) (a : actor) :
  actor_after_input w p m a = self (snd (try_body w p m (mkState a []))).
Proof. unfold actor_after_input. now rewrite input_split. Qed.

Lemma outcome_of_input (m : value) (a : actor) :
  let r1 := try_body w p m (mkState a []) in
  fst (run_input w p m a) =
    fst (finish w p (output_of (fst r1)) (mkState (self (snd r1)) [])).
Proof. cbn. now rewrite input_split. Qed.

Lemma bookkeep_records_app (l1 l2 : list event) :
  bookkeep_records (l1 ++ l2) = (bookkeep_records l1 ++ bookkeep_records l2)%list.
Proof. apply flat_map_app. Qed.

Lemma error_signals_app (l1 l2 : list event) :
  error_signals (l1 ++ l2) = (error_signals l1 ++ error_signals l2)%list.
Proof. apply flat_map_app. Qed.

Lemma save_calls_app (l1 l2 : list event) :
  save_calls (l1 ++ l2) = (save_calls l1 ++ save_calls l2)%list.
Proof. apply flat_map_app. Qed.

Lemma bookkeep_records_signals (r : outcome value) :
  bookkeep_records (signals_of r) = [].
Proof. now destruct r. Qed.

Lemma save_calls_signals (r : outcome value) : save_calls (signals_of r) = [].
Proof. now destruct r. Qed.

(** Only the bookkeeping stage emits records and saves. *)
Lemma bookkeep_records_of_input (m : value) (a : actor) :
  let r1 := try_body w p m (mkState a []) in
  bookkeep_records (events_of_input w p m a) =
    bookkeep_records
      (trace (snd (finish w p (output_of (fst r1)) (mkState (self (snd r1)) [])))).
Proof.
  cbn. rewrite events_of_input_split, !bookkeep_records_app.
  destruct (try_body_quiet m a) as (-> & _).
  now rewrite bookkeep_records_signals.
Qed.

Lemma save_calls_of_input (m : value) (a : actor) :
  let r1 := try_body w p m (mkState a []) in
  save_calls (events_of_input w p m a) =
    save_calls
      (trace (snd (finish w p (output_of (fst r1)) (mkState (self (snd r1)) [])))).
Proof.
  cbn. rewrite events_of_input_split, !save_calls_app.
  destruct (try_body_quiet m a) as (_ & _ & -> & _).
  now rewrite save_calls_signals.
Qed.





(** The bookkeeping stage signals no error and calls neither the
    hydrator nor [process]. *)
Lemma finish_quiet (output : value) (a : actor) :
  let tr := trace (snd (finish w p output (mkState a []))) in
  error_signals tr = [] /\ hydrations tr = [] /\ process_calls tr = [].
Proof. run_cases; repeat split; reflexivity. Qed.




Lemma same_but_resolved_frame (a b : actor) :
  same_but_resolved a b ->
  _input_template b = _input_template a /\
  _config_template b = _config_template a /\
  _session_id b = _session_id a /\
  _id b = _id a /\
  _session_enabled b = _session_enabled a /\
  _is_tool b = _is_tool a.
Proof. unfold same_but_resolved. intros ->. repeat split. Qed.

Lemma input_same_but_resolved (m : value) (a : actor) :
  same_but_resolved a (actor_after_input w p m a).
Proof. rewrite actor_after_input_try_body. apply try_body_quiet. Qed.

(** *** The claims about one call *)




(** C5.  In normal mode a call of [input] without a message runs
    [process] on resolved input and config equal to the stored templates,
    and the hydrator is not called. *)
Theorem input_without_message_uses_templates (a : actor)
    (Hnormal : _is_tool a = false) :
  let tr := events_of_input w p VNone a in
  hydrations tr = [] /\
  process_calls tr = [(_input_template a, _config_template a)] /\
  (exists rest, tr = process_call (_input_template a) (_config_template a) :: rest) /\
  _input (actor_after_input w p VNone a) = _input_template a /\
  _config (actor_after_input w p VNone a) = _config_template a.
Proof.
  cbv zeta. rewrite events_of_input_split, actor_after_input_try_body. cbv zeta.
  assert (Htry : snd (try_body w p VNone (mkState a [])) =
                 mkState (with_config (with_input a (_input_template a))
                                      (_config_template a))
                         [process_call (_input_template a) (_config_template a)]).
  { unfold_runtime. cbn. rewrite Hnormal. cbn.
    destruct (truthy (_config a)); reflexivity. }
  rewrite Htry. cbn [self trace].
  match goal with
  | |- context [finish w p ?o (mkState ?b [])] =>
      destruct (finish_quiet o b) as (_ & Hh & Hp)
  end.
  unfold hydrations, process_calls in *.
  rewrite !flat_map_app, Hh, Hp.
  repeat split.
  - now destruct (fst (try_body w p VNone (mkState a []))).
  - now destruct (fst (try_body w p VNone (mkState a []))).
  - eexists. reflexivity.
Qed.

(** C6, as amended.  In tool mode with no declared input fields, when
    the input class accepts the message's key-value content and the
    hydration of the config succeeds, the resolved input is the record
    the input class builds from that content, the hydrator is called on
    the config template only, and [process] is called exactly once, on
    that input and the hydrated config. *)
Theorem tool_input_taken_from_message
    (kw : list (string * value)) (a : actor) (i c : value)
    (Htool : _is_tool a = true) (Hfields : _input_fields a = [])
    (Hinput : input_class w kw = Ok i)
    (Hconfig : hydrate_input w (_config_template a) (VDict kw) = Ok c) :
  let tr := events_of_input w p (VDict kw) a in
  hydrations tr = [(_config_template a, VDict kw)] /\
  process_calls tr = [(i, c)] /\
  _input (actor_after_input w p (VDict kw) a) = i /\
  _config (actor_after_input w p (VDict kw) a) = c.
Proof.
  cbv zeta. rewrite events_of_input_split, actor_after_input_try_body. cbv zeta.
  assert (Htry : snd (try_body w p (VDict kw) (mkState a [])) =
                 mkState (with_config (with_input a i) c)
                         [hydrate_input_call (_config_template a) (VDict kw);
                          process_call i c]).
  { unfold_runtime. cbn. rewrite Htool, Hfields. cbn.
    rewrite Hinput. cbn. rewrite Hconfig. reflexivity. }
  rewrite Htry. cbn [self trace].
  match goal with
  | |- context [finish w p ?o (mkState ?b [])] =>
      destruct (finish_quiet o b) as (_ & Hh & Hp)
  end.
  unfold hydrations, process_calls in *.
  rewrite !flat_map_app, Hh, Hp.
  repeat split;
    now destruct (fst (try_body w p (VDict kw) (mkState a []))).
Qed.

(** C9.  When the creation of the asset raises, [_upload_asset_from_url]
    raises nothing and returns the [asset] it was given. *)
Theorem upload_returns_its_argument_on_failure
    (asset file_name mime_type : value) (s : state) (e : exn)
    (Hfail : fst (create_asset w asset file_name mime_type s) = Raise e) :
  fst (_upload_asset_from_url w asset file_name mime_type s) = Ok asset.
Proof.
  unfold _upload_asset_from_url, try_except, bind.
  destruct (create_asset w asset file_name mime_type s) as [[created|e'] s'];
    [discriminate|].
  reflexivity.
Qed.

(** *** Further properties of one call *)

Import Observations.

(** The bookkeeping stage, when it returns: the save, then the record,
    then the end of the tool call. *)
Lemma finish_tail (output : value) (a : actor) :
  fst (finish w p output (mkState a [])) = Ok tt ->
  exists rec,
    trace (snd (finish w p output (mkState a []))) =
      (save_app_session_data_call (_session_id a) (_id a) (bk_session_data rec)
         :: stream_bookkeep (Some rec) :: end_of_call a)%list /\
    usage_data p a = Ok (bk_usage_data rec).
Proof.
  unfold end_of_call. unfold_runtime. cbn.
  repeat (case_atom; cbn in * ); intros H; try discriminate;
    match goal with
    | |- context [stream_bookkeep (Some ?r)] => exists r
    end; split; reflexivity || assumption.
Qed.

Lemma on_stop_count_app (l1 l2 : list event) :
  on_stop_count (l1 ++ l2) = on_stop_count l1 + on_stop_count l2.
Proof. unfold on_stop_count. now rewrite flat_map_app, length_app. Qed.

Lemma try_body_no_on_stop (m : value) (a : actor) :
  on_stop_count (trace (snd (try_body w p m (mkState a [])))) = 0.
Proof. run_cases; reflexivity. Qed.

Lemma finish_on_stop (output : value) (a : actor) :
  let r := finish w p output (mkState a []) in
  on_stop_count (trace (snd r)) =
    if andb (_is_tool a) (negb (raises (fst r))) then 1 else 0.
Proof.
  unfold_runtime. cbn. destruct (_is_tool a); cbn;
    repeat (case_atom; cbn in * ); reflexivity.
Qed.

(** The end of a tool call is signalled exactly when the actor is in
    tool mode and the call returns; it is never signalled in normal mode
    or when the bookkeeping stage raised. *)
Theorem on_stop_only_after_a_returned_tool_call (m : value) (a : actor) :
  on_stop_count (events_of_input w p m a) =
    if andb (_is_tool a) (negb (raises (fst (run_input w p m a)))) then 1 else 0.
Proof.
  rewrite events_of_input_split, outcome_of_input. cbv zeta.
  rewrite !on_stop_count_app, try_body_no_on_stop.
  destruct (try_body_quiet m a) as (_ & _ & _ & Hsame).
  apply same_but_resolved_frame in Hsame.
  destruct Hsame as (_ & _ & _ & _ & _ & Htool). rewrite <- Htool.
  replace (on_stop_count (signals_of (fst (try_body w p m (mkState a []))))) with 0
    by now destruct (fst (try_body w p m (mkState a []))).
  apply finish_on_stop.
Qed.

(** When a call returns, its trace ends with the session save, then the
    bookkeeping record, then (in tool mode only) the end-of-call signal;
    nothing before them is a save, a record or an end-of-call signal, and
    the mapping saved is the session data of the record emitted. *)
Theorem returned_call_ends_with_save_then_record (m : value) (a : actor)
    (Hret : fst (run_input w p m a) = Ok tt) :
  exists before rec,
    events_of_input w p m a =
      (before ++
       save_app_session_data_call (_session_id a) (_id a) (bk_session_data rec)
         :: stream_bookkeep (Some rec) :: end_of_call a)%list /\
    save_calls before = [] /\
    bookkeep_records before = [] /\
    on_stop_count before = 0.
Proof.
  rewrite outcome_of_input in Hret. cbv zeta in Hret.
  destruct (finish_tail _ _ Hret) as (rec & Htail & _).
  destruct (try_body_quiet m a) as (Hb & _ & Hs & Hsame).
  apply same_but_resolved_frame in Hsame.
  destruct Hsame as (_ & _ & Hsid & Hid & _ & Htool).
  exists (trace (snd (try_body w p m (mkState a []))) ++
          signals_of (fst (try_body w p m (mkState a []))))%list, rec.
  split; [|split; [|split]].
  - rewrite events_of_input_split. cbv zeta. rewrite Htail, Hsid, Hid.
    unfold end_of_call. rewrite Htool. now rewrite <- app_assoc.
  - now rewrite save_calls_app, Hs, save_calls_signals.
  - now rewrite bookkeep_records_app, Hb, bookkeep_records_signals.
  - rewrite on_stop_count_app, try_body_no_on_stop.
    now destruct (fst (try_body w p m (mkState a []))).
Qed.

(** The record emitted by a call that returns carries the usage data the
    processor reports at that time, also when the record is the
    processor's own. *)
Theorem emitted_record_carries_usage_data (m : value) (a : actor)
    (Hret : fst (run_input w p m a) = Ok tt) :
  exists rec,
    bookkeep_records (events_of_input w p m a) = [Some rec] /\
    usage_data p (actor_after_input w p m a) = Ok (bk_usage_data rec).
Proof.
  rewrite outcome_of_input in Hret. cbv zeta in Hret.
  destruct (finish_tail _ _ Hret) as (rec & Htail & Husage).
  exists rec. split.
  - rewrite bookkeep_records_of_input. cbv zeta. rewrite Htail.
    unfold end_of_call. now destruct (_is_tool _).
  - now rewrite actor_after_input_try_body.
Qed.

Lemma finish_custom_record (output : value) (a : actor) (r : BookKeepingData) :
  get_bookkeeping_data p a = Ok (Some r) ->
  let tr := trace (snd (finish w p output (mkState a []))) in
  save_calls tr =
    match usage_data p a with
    | Ok _ => [(_session_id a, _id a, bk_session_data r)]
    | Raise _ => []
    end /\
  bookkeep_records tr =
    match usage_data p a with
    | Ok u =>
        match save_app_session_data w (_session_id a) (_id a) (bk_session_data r) with
        | Ok _ => [Some (set_usage_data r u)]
        | Raise _ => []
        end
    | Raise _ => []
    end.
Proof.
  intros Hcustom. unfold_runtime. cbn. rewrite Hcustom. cbn.
  repeat (case_atom; cbn in * ); split; reflexivity.
Qed.

(** When the processor supplies its own bookkeeping record, that record
    is emitted with nothing but its usage data replaced, its session data
    is what is saved, and neither [session_data_to_persist] nor
    [disable_history] nor the output of the call has any part in it. *)
Theorem custom_record_is_emitted_as_supplied (m : value) (a : actor)
    (r : BookKeepingData)
    (Hcustom : get_bookkeeping_data p (actor_after_input w p m a) = Ok (Some r)) :
  let a' := actor_after_input w p m a in
  let tr := events_of_input w p m a in
  save_calls tr =
    match usage_data p a' with
    | Ok _ => [(_session_id a, _id a, bk_session_data r)]
    | Raise _ => []
    end /\
  bookkeep_records tr =
    match usage_data p a' with
    | Ok u =>
        match save_app_session_data w (_session_id a) (_id a) (bk_session_data r) with
        | Ok _ => [Some (set_usage_data r u)]
        | Raise _ => []
        end
    | Raise _ => []
    end.
Proof.
  cbv zeta. rewrite save_calls_of_input, bookkeep_records_of_input. cbv zeta.
  rewrite actor_after_input_try_body in *.
  destruct (try_body_quiet m a) as (_ & _ & _ & Hsame).
  apply same_but_resolved_frame in Hsame.
  destruct Hsame as (_ & _ & Hsid & Hid & _ & _).
  rewrite <- Hsid, <- Hid.
  now apply finish_custom_record.
Qed.



(** Only the [try] block hydrates and runs [process]; only its [except]
    clause signals an error. *)
Lemma calls_of_input (m : value) (a : actor) :
  let r1 := try_body w p m (mkState a []) in
  hydrations (events_of_input w p m a) = hydrations (trace (snd r1)) /\
  process_calls (events_of_input w p m a) = process_calls (trace (snd r1)) /\
  error_signals (events_of_input w p m a) =
    match fst r1 with Ok _ => [] | Raise e => [e] end.
Proof.
  cbv zeta. rewrite events_of_input_split. cbv zeta.
  unfold hydrations, process_calls.
  rewrite !error_signals_app, !flat_map_app.
  destruct (try_body_quiet m a) as (_ & He & _ & _). rewrite He.
  match goal with
  | |- context [finish w p ?o (mkState ?b [])] =>
      destruct (finish_quiet o b) as (Hfe & Hfh & Hfp)
  end.
  unfold hydrations, process_calls in Hfh, Hfp. rewrite Hfe, Hfh, Hfp.
  destruct (fst (try_body w p m (mkState a []))); cbn;
    now rewrite !app_nil_r.
Qed.

(** In tool mode with declared input fields the input template is
    hydrated from the message, the result (dumped when it is a model) is
    passed through the input class again, the config template is hydrated,
    and [process] runs once on the validated input and the hydrated
    config. *)
Theorem tool_fields_input_is_hydrated_then_validated
    (m : value) (a : actor) (h : value) (kw : list (string * value)) (i c : value)
    (Htool : _is_tool a = true) (Hfields : _input_fields a <> [])
    (Hhydrated : hydrate_input w (_input_template a) m = Ok h)
    (Hmapping : kwargs (if is_BaseModel h then model_dump h else h) = Ok kw)
    (Hinput : input_class w kw = Ok i)
    (Hconfig : hydrate_input w (_config_template a) m = Ok c) :
  hydrations (events_of_input w p m a) =
    [(_input_template a, m); (_config_template a, m)] /\
  process_calls (events_of_input w p m a) = [(i, c)] /\
  actor_after_input w p m a = with_config (with_input a i) c.
Proof.
  destruct (calls_of_input m a) as (-> & -> & _).
  rewrite actor_after_input_try_body.
  assert (Htry : snd (try_body w p m (mkState a [])) =
                 mkState (with_config (with_input a i) c)
                         [hydrate_input_call (_input_template a) m;
                          hydrate_input_call (_config_template a) m;
                          process_call i c]).
  { unfold_runtime. cbn. rewrite Htool. cbn.
    destruct (_input_fields a) as [|f fs]; [contradiction|]. cbn.
    rewrite Hhydrated. cbn. rewrite Hmapping. cbn. rewrite Hinput. cbn.
    rewrite Hconfig. reflexivity. }
  rewrite Htry. repeat split.
Qed.

(** In normal mode with a message that is true as a condition, the
    resolved input is what the hydrator returns for the input template,
    as it is; the config template is hydrated only if the config resolved
    so far is true as a condition, and is taken unchanged otherwise. *)
Theorem normal_mode_hydrates_from_message
    (m : value) (a : actor) (i c : value)
    (Hnormal : _is_tool a = false) (Hmessage : truthy m = true)
    (Hinput : hydrate_input w (_input_template a) m = Ok i)
    (Hconfig : (if truthy (_config a)
                then hydrate_input w (_config_template a) m
                else Ok (_config_template a)) = Ok c) :
  hydrations (events_of_input w p m a) =
    (_input_template a, m) ::
    (if truthy (_config a) then [(_config_template a, m)] else []) /\
  process_calls (events_of_input w p m a) = [(i, c)] /\
  actor_after_input w p m a = with_config (with_input a i) c.
Proof.
  destruct (calls_of_input m a) as (-> & -> & _).
  rewrite actor_after_input_try_body.
  unfold_runtime. cbn. rewrite Hnormal. cbn. rewrite Hmessage. cbn.
  rewrite Hinput. cbn.
  destruct (truthy (_config a)); cbn; rewrite ?Hconfig; cbn.
  - repeat split.
  - injection Hconfig as <-. repeat split.
Qed.

(** In tool mode with no declared input fields, a message that is not a
    mapping, or that the input class rejects, leaves every attribute of
    the actor as it was: nothing is hydrated, [process] is not called, and
    the exception is signalled on the output stream. *)
Theorem rejected_tool_message_leaves_actor_unchanged
    (m : value) (a : actor) (e : exn)
    (Htool : _is_tool a = true) (Hfields : _input_fields a = [])
    (Hrejected : fst (construct_input w m (mkState a [])) = Raise e) :
  actor_after_input w p m a = a /\
  hydrations (events_of_input w p m a) = [] /\
  process_calls (events_of_input w p m a) = [] /\
  error_signals (events_of_input w p m a) = [e].
Proof.
  destruct (calls_of_input m a) as (-> & -> & ->).
  rewrite actor_after_input_try_body.
  revert Hrejected. unfold_runtime. cbn. rewrite Htool, Hfields. cbn.
  destruct (kwargs m) as [kw|e1]; cbn;
    [destruct (input_class w kw) as [i|e2]; cbn|];
    intros H; try discriminate; injection H as <-; repeat split.
Qed.

(** A call is not atomic: in tool mode with no declared input fields,
    when the input class accepts the message but the hydration of the
    config raises, the resolved input is already the new one while the
    resolved config is still the old one, and [process] is not called. *)
Theorem failed_config_hydration_keeps_new_input
    (kw : list (string * value)) (a : actor) (i : value) (e : exn)
    (Htool : _is_tool a = true) (Hfields : _input_fields a = [])
    (Hinput : input_class w kw = Ok i)
    (Hconfig : hydrate_input w (_config_template a) (VDict kw) = Raise e) :
  actor_after_input w p (VDict kw) a = with_input a i /\
  process_calls (events_of_input w p (VDict kw) a) = [] /\
  error_signals (events_of_input w p (VDict kw) a) = [e].
Proof.
  destruct (calls_of_input (VDict kw) a) as (_ & -> & ->).
  rewrite actor_after_input_try_body.
  unfold_runtime. cbn. rewrite Htool, Hfields. cbn.
  rewrite Hinput. cbn. rewrite Hconfig. repeat split.
Qed.

(** Without a message a normal-mode call resolves to the templates. *)
Lemma try_body_without_message (a : actor) :
  _is_tool a = false ->
  snd (try_body w p VNone (mkState a [])) =
    mkState (with_config (with_input a (_input_template a)) (_config_template a))
            [process_call (_input_template a) (_config_template a)].
Proof.
  intros Hnormal. unfold_runtime. cbn. rewrite Hnormal. cbn.
  destruct (truthy (_config a)); reflexivity.
Qed.

End RuntimeProperties.

(* ===================================================================== *)
(** ** Sequences of calls, and the claims on concrete runs *)
(* ===================================================================== *)

Section Runs.

Import ApiProcessorInterface.

Lemma same_but_resolved_refl (a : actor) : same_but_resolved a a.
Proof. unfold same_but_resolved. now destruct a. Qed.

Lemma same_but_resolved_trans (a b c : actor) :
  same_but_resolved a b -> same_but_resolved b c -> same_but_resolved a c.
Proof.
  unfold same_but_resolved. intros Hab Hbc.
  rewrite Hbc. rewrite Hab at 1. now destruct a.
Qed.

Lemma run_inputs_same_but_resolved (calls : list call) :
  forall a, same_but_resolved a (run_inputs calls a).
Proof.
  induction calls as [|c rest IH]; intros a; cbn [run_inputs].
  - apply same_but_resolved_refl.
  - eapply same_but_resolved_trans; [|apply IH].
    apply input_same_but_resolved.
Qed.

(** What [__init__] stores as templates. *)
Lemma init_templates (w : world) (p : processor)
    (input config env : value) (session_id : string) (request_user : option User)
    (app_uuid : value) (input_fields : list value) (output_template : value)
    (id : string) (is_tool session_enabled : bool) (a0 : actor) (tr tr0 : list event) :
  __init__ w p input config env session_id request_user app_uuid input_fields
           output_template id is_tool session_enabled tr = (Ok a0, tr0) ->
  exists ikw ckw,
    kwargs input = Ok ikw /\ kwargs config = Ok ckw /\
    input_class w ikw = Ok (_input_template a0) /\
    configuration_class w ckw = Ok (_config_template a0).
Proof.
  unfold __init__.
  destruct (kwargs config) as [ckw|]; [|discriminate].
  destruct (configuration_class w ckw) as [c|] eqn:Hc; [|discriminate].
  destruct (kwargs input) as [ikw|]; [|discriminate].
  destruct (input_class w ikw) as [i|] eqn:Hi; [|discriminate].
  intros H. exists ikw, ckw.
  destruct (get_app_session_data w session_id id); [|discriminate].
  destruct session_enabled;
    [destruct (process_session_data p _ _); [|discriminate]|];
    injection H as <- _; cbn; auto.
Qed.

(** Whatever [process] returned, its shape raises no error signal. *)
Lemma returned_value_is_not_checked (w : world) (p : processor)
    (m : value) (a : actor) (out : value) :
  fst (try_body w p m (mkState a [])) = Ok out ->
  error_signals (events_of_input w p m a) = [].
Proof.
  intros Hok. rewrite events_of_input_split. cbv zeta.
  rewrite Hok, !error_signals_app.
  destruct (try_body_quiet w p m a) as (_ & -> & _).
  now destruct (finish_quiet w p (output_of (Ok out))
                  (self (snd (try_body w p m (mkState a []))))) as (-> & _).
Qed.

(** C7.  For an actor built by [__init__], the template input and config
    are the records the classes built from the declared values, and after
    any sequence of calls of [input] they are still those records: a call
    assigns the resolved input and config and no other attribute. *)
Theorem templates_are_never_modified (w : world) (p : processor)
    (input config env : value) (session_id : string) (request_user : option User)
    (app_uuid : value) (input_fields : list value) (output_template : value)
    (id : string) (is_tool session_enabled : bool) (a0 : actor) (tr0 : list event)
    (Hinit : __init__ w p input config env session_id request_user app_uuid
               input_fields output_template id is_tool session_enabled []
             = (Ok a0, tr0))
    (calls : list call) :
  (exists ikw ckw,
     kwargs input = Ok ikw /\ kwargs config = Ok ckw /\
     input_class w ikw = Ok (_input_template a0) /\
     configuration_class w ckw = Ok (_config_template a0)) /\
  _input_template (run_inputs calls a0) = _input_template a0 /\
  _config_template (run_inputs calls a0) = _config_template a0 /\
  same_but_resolved a0 (run_inputs calls a0).
Proof.
  split; [eapply init_templates; eassumption|].
  pose proof (run_inputs_same_but_resolved calls a0) as Hsame.
  destruct (same_but_resolved_frame _ _ Hsame) as (Hi & Hc & _).
  auto.
Qed.

End Runs.

Section ConcreteRuns.

Import ApiProcessorInterface.

(** **** C1 *)



(** **** C2 *)



(** **** C3 *)



(** **** C4 *)

(** C4, evaluated on the code.  [process] returns a string.  The check
    of [validate_and_process] rejects it, but [input] does not run that
    check: the call returns, no error is signalled, and the record
    carries the string as its output. *)
Theorem unrecognised_result_is_not_reported :
  let a := sample_actor false true in
  let tr := events_of_input plain_world string_processor VNone a in
  process string_processor a = Ok (VStr "ok") /\
  fst (validate_and_process_result (VStr "ok") (mkState a [])) =
    Raise (Exception "Invalid result type") /\
  fst (run_input plain_world string_processor VNone a) = Ok tt /\
  error_signals tr = [] /\
  map (option_map bk_output) (bookkeep_records tr) = [Some (VStr "ok")].
Proof. cbv zeta. repeat split. Qed.

(** **** C5 *)

Lemma input_without_message_uses_templates_witness :
  let a := sample_actor false true in
  let tr := events_of_input plain_world text_processor VNone a in
  hydrations tr = [] /\
  process_calls tr = [(_input_template a, _config_template a)] /\
  (exists rest, tr = process_call (_input_template a) (_config_template a) :: rest) /\
  _input (actor_after_input plain_world text_processor VNone a) = _input_template a /\
  _config (actor_after_input plain_world text_processor VNone a) = _config_template a.
Proof.
  exact (input_without_message_uses_templates plain_world text_processor
           (sample_actor false true) eq_refl).
Defined.

(** **** C6 *)

Lemma tool_input_taken_from_message_witness :
  let a := sample_actor true true in
  let tr := events_of_input url_required_world text_processor (VDict tool_message) a in
  hydrations tr = [(_config_template a, VDict tool_message)] /\
  process_calls tr =
    [(VModel ApiProcessorSchema tool_message, VModel ApiProcessorSchema [])] /\
  _input (actor_after_input url_required_world text_processor (VDict tool_message) a) =
    VModel ApiProcessorSchema tool_message /\
  _config (actor_after_input url_required_world text_processor (VDict tool_message) a) =
    VModel ApiProcessorSchema [].
Proof.
  exact (tool_input_taken_from_message url_required_world text_processor
           tool_message (sample_actor true true)
           (VModel ApiProcessorSchema tool_message) (VModel ApiProcessorSchema [])
           eq_refl eq_refl eq_refl eq_refl).
Defined.

(** C6 as stated fails: in tool mode with no declared input fields, a
    message without the field the input class requires is rejected by
    the class; the resolved input keeps its former value, the config is
    not hydrated and [process] is not called. *)
Lemma rejected_tool_message_is_not_executed :
  let a := sample_actor true true in
  let m := VDict [("instructions", VList [])] in
  let tr := events_of_input url_required_world text_processor m a in
  _is_tool a = true /\ _input_fields a = [] /\
  process_calls tr = [] /\
  length (process_calls tr) <> 1 /\
  hydrations tr = [] /\
  _input (actor_after_input url_required_world text_processor m a) = _input a /\
  error_signals tr = [ValidationError "url: Field required"].
Proof. cbv zeta. repeat split. discriminate. Qed.

(** **** C7 *)

Lemma templates_are_never_modified_witness :
  let calls := [mkCall plain_world refused_processor VNone;
                mkCall url_required_world text_processor (VDict tool_message);
                mkCall save_fails_world text_processor (VDict [("q", VStr "x")])] in
  let a0 := mkActor "processor-1"
              (VModel ApiProcessorSchema []) (VModel ApiProcessorSchema [("url", VStr "https://example.com")])
              (VModel ApiProcessorSchema []) (VModel ApiProcessorSchema [("url", VStr "https://example.com")])
              (VDict []) "session-1" None (VStr "app-1") [] false true (VDict [])
              (VList [VList [VStr "promptly/*/*/*"; MetricType_INVOCATION;
                             VList [ProviderConfigSource_PLATFORM_DEFAULT; VInt 1]]]) in
  (exists ikw ckw,
     kwargs example_input = Ok ikw /\ kwargs (VDict []) = Ok ckw /\
     input_class plain_world ikw = Ok (_input_template a0) /\
     configuration_class plain_world ckw = Ok (_config_template a0)) /\
  _input_template (run_inputs calls a0) = _input_template a0 /\
  _config_template (run_inputs calls a0) = _config_template a0 /\
  same_but_resolved a0 (run_inputs calls a0).
Proof.
  exact (templates_are_never_modified plain_world base_processor
           example_input (VDict []) (VDict []) "session-1" None (VStr "app-1") []
           (VDict []) "processor-1" false true _ _ eq_refl _).
Defined.

(** **** C9 *)

Lemma upload_returns_its_argument_on_failure_witness :
  let s := mkState (sample_actor false true) [] in
  fst (_upload_asset_from_url asset_store_fails_world
         (VStr "https://example.com/logo.png") VNone (VStr "image/png") s) =
    Ok (VStr "https://example.com/logo.png") /\
  fst (_upload_asset_from_url asset_store_fails_world
         VNone VNone (VStr "video/webm") s) = Ok VNone.
Proof.
  split.
  - exact (upload_returns_its_argument_on_failure asset_store_fails_world
             (VStr "https://example.com/logo.png") VNone (VStr "image/png")
             (mkState (sample_actor false true) [])
             (Exception "asset store unavailable") eq_refl).
  - exact (upload_returns_its_argument_on_failure asset_store_fails_world
             VNone VNone (VStr "video/webm")
             (mkState (sample_actor false true) [])
             (Exception "asset store unavailable") eq_refl).
Defined.

End ConcreteRuns.

(* ===================================================================== *)
(** ** Construction, replays and session assets *)
(* ===================================================================== *)

Section ConstructionAndAssets.

Import ApiProcessorInterface Observations PyOps SessionAssets.

(** After any history of calls, a normal-mode call without a message
    runs [process] on the templates the actor started with, and hydrates
    nothing: a replay does not see what earlier messages resolved to. *)
Theorem replay_runs_on_the_original_templates
    (calls : list call) (w : world) (p : processor) (a0 : actor)
    (Hnormal : _is_tool a0 = false) :
  let a := run_inputs calls a0 in
  hydrations (events_of_input w p VNone a) = [] /\
  process_calls (events_of_input w p VNone a) =
    [(_input_template a0, _config_template a0)].
Proof.
  cbv zeta.
  pose proof (run_inputs_same_but_resolved calls a0) as Hsame.
  apply same_but_resolved_frame in Hsame.
  destruct Hsame as (Hi & Hc & _ & _ & _ & Htool).
  destruct (calls_of_input w p VNone (run_inputs calls a0)) as (-> & -> & _).
  rewrite try_body_without_message by congruence.
  cbn. now rewrite Hi, Hc.
Qed.

(** *** [__init__] *)

(** A constructed actor has read the session store exactly once, its
    resolved input and config start equal to the templates, and its mode
    and session attributes are the arguments given. *)
Theorem constructed_actor_starts_from_its_templates
    (w : world) (p : processor)
    (input config env : value) (session_id : string) (request_user : option User)
    (app_uuid : value) (input_fields : list value) (output_template : value)
    (id : string) (is_tool session_enabled : bool)
    (tr tr0 : list event) (a0 : actor)
    (Hinit : __init__ w p input config env session_id request_user app_uuid
               input_fields output_template id is_tool session_enabled tr
             = (Ok a0, tr0)) :
  tr0 = (tr ++ [get_app_session_data_call session_id id])%list /\
  _input a0 = _input_template a0 /\
  _config a0 = _config_template a0 /\
  _is_tool a0 = is_tool /\
  _session_enabled a0 = session_enabled /\
  _input_fields a0 = input_fields /\
  _session_id a0 = session_id /\
  _id a0 = id.
Proof.
  revert Hinit. unfold __init__.
  destruct (kwargs config) as [ckw|]; [|discriminate].
  destruct (configuration_class w ckw) as [c|]; [|discriminate].
  destruct (kwargs input) as [ikw|]; [|discriminate].
  destruct (input_class w ikw) as [i|]; [|discriminate].
  destruct (get_app_session_data w session_id id); [|discriminate].
  destruct session_enabled;
    [destruct (process_session_data p _ _); [|discriminate]|];
    intros H; injection H as <- <-; repeat split.
Qed.

(** When the declared input or config is not a mapping its class
    accepts, construction raises before the session store is read. *)
Theorem rejected_declaration_fails_before_session_load
    (w : world) (p : processor)
    (input config env : value) (session_id : string) (request_user : option User)
    (app_uuid : value) (input_fields : list value) (output_template : value)
    (id : string) (is_tool session_enabled : bool) (tr : list event)
    (Hrejected :
       raises (obind (kwargs config) (configuration_class w)) = true \/
       raises (obind (kwargs input) (input_class w)) = true) :
  exists e,
    __init__ w p input config env session_id request_user app_uuid
             input_fields output_template id is_tool session_enabled tr
    = (Raise e, tr).
Proof.
  unfold __init__, obind in *.
  destruct (kwargs config) as [ckw|e1]; [|eauto].
  destruct (configuration_class w ckw) as [c|e2]; [|eauto].
  destruct (kwargs input) as [ikw|e3]; [|eauto].
  destruct (input_class w ikw) as [i|e4]; [|eauto].
  destruct Hrejected; discriminate.
Qed.

(** *** Uploads *)

Ltac unfold_assets :=
  unfold _create_asset_stream, _get_session_asset_data_uri, _get_session_asset,
    screenshot_reference, download_reference, _upload_asset_from_url,
    create_asset, request_user_email, try_except, bind, ret, lift, get_self,
    emit in *.

(** The creation of an asset neither assigns an attribute nor emits an
    event. *)
Lemma create_asset_state (w : world) (asset file_name mime_type : value) (s : state) :
  snd (create_asset w asset file_name mime_type s) = s.
Proof.
  unfold_assets. cbn.
  destruct (_request_user (self s)); cbn; [|reflexivity].
  destruct (truthy asset); cbn; [|reflexivity].
  destruct (startswith asset "data:") as [[|]|]; reflexivity.
Qed.

(** [_upload_asset_from_url] never raises and never changes the actor;
    it returns the created asset, or its argument when the creation
    raised; and on either path the database connection is closed exactly
    once, as the last thing it does. *)
Theorem upload_never_raises_and_closes_once
    (w : world) (asset file_name mime_type : value) (s : state) :
  exists v events,
    _upload_asset_from_url w asset file_name mime_type s =
      (Ok v, mkState (self s) (trace s ++ events ++ [db_connection_close])%list) /\
    db_close_count events = 0 /\
    (fst (create_asset w asset file_name mime_type s) = Ok v \/
     raises (fst (create_asset w asset file_name mime_type s)) = true /\ v = asset).
Proof.
  pose proof (create_asset_state w asset file_name mime_type s) as Hstate.
  unfold _upload_asset_from_url, try_except, bind, ret, emit.
  destruct (create_asset w asset file_name mime_type s) as [[created|e] s'];
    cbn in Hstate; subst s'; cbn.
  - exists created, []. repeat split; auto.
  - exists asset, [logger_exception (exn_str e)]. cbn.
    rewrite <- app_assoc. repeat split; auto.
Qed.

(** When the streaming asset cannot be created, [_create_asset_stream]
    returns [None] and builds no stream. *)
Theorem asset_stream_is_none_when_creation_fails
    (w : world) (AssetStream : value -> outcome value)
    (mime_type file_name : value) (s : state) (e : exn)
    (Hfail : fst (create_asset w VNone file_name mime_type s) = Raise e) :
  fst (_create_asset_stream w AssetStream mime_type file_name s) = Ok VNone.
Proof.
  unfold _create_asset_stream, _upload_asset_from_url, try_except, bind.
  destruct (create_asset w VNone file_name mime_type s) as [[created|e'] s'];
    [discriminate|reflexivity].
Qed.

(** A reference that does not start with [objref://] is returned as it
    is, without the asset store being asked. *)
Theorem plain_reference_is_returned_unchanged
    (get_asset_data : value -> option User -> string -> bool -> bool -> outcome value)
    (reference : string) (include_name : bool) (s : state)
    (Hplain : String.prefix "objref://" reference = false) :
  _get_session_asset_data_uri get_asset_data (VStr reference) include_name s =
    (Ok (VStr reference), s).
Proof. unfold_assets. cbn. rewrite Hplain. reflexivity. Qed.

(** For an [objref://] reference, what comes back is the [data_uri]
    entry of the store's answer when that answer is a mapping with such
    an entry, and the reference itself when the answer is empty or a
    mapping without one. *)
Theorem object_reference_resolves_to_data_uri
    (get_asset_data : value -> option User -> string -> bool -> bool -> outcome value)
    (reference : string) (include_name : bool) (s : state)
    (answer : list (string * value))
    (Href : String.prefix "objref://" reference = true)
    (Hanswer : get_asset_data (VStr reference) (_request_user (self s))
                 (_session_id (self s)) true include_name = Ok (VDict answer)) :
  fst (_get_session_asset_data_uri get_asset_data (VStr reference) include_name s) =
    Ok (match lookup "data_uri" answer with
        | Some uri => uri
        | None => VStr reference
        end).
Proof.
  unfold_assets. cbn. rewrite Href. cbn. rewrite Hanswer.
  destruct answer as [|kv rest]; [reflexivity|]. cbn -[lookup].
  destruct (lookup "data_uri" (kv :: rest)); reflexivity.
Qed.

(** The store's failure to keep a screenshot or a downloaded file is not
    contained: [_upload_asset_from_url] hands the data URI back, and
    reading [objref] from that string raises an [AttributeError]. *)
Theorem failed_upload_breaks_the_reference
    (w : world) (screenshot name encoded mime_type : string) (s : state) (e : exn)
    (Hbytes : screenshot <> "")
    (Hstore : forall uri metadata ref_id, create_from_data_uri w uri metadata ref_id = Raise e) :
  fst (screenshot_reference w screenshot name encoded s) =
    Raise (AttributeError "'str' object has no attribute 'objref'") /\
  fst (download_reference w mime_type name encoded s) =
    Raise (AttributeError "'str' object has no attribute 'objref'").
Proof.
  assert (Hne : String.eqb screenshot "" = false)
    by now apply String.eqb_neq.
  assert (Hprefix : forall x, String.prefix "" x = true)
    by (intros x; destruct x; reflexivity).
  unfold_assets. cbn. rewrite Hne. cbn.
  destruct (_request_user (self s)); cbn;
    rewrite ?Hprefix, ?Hstore; cbn; split; reflexivity.
Qed.

End ConstructionAndAssets.

(* ===================================================================== *)
(** ** Validation and translation of instructions, together *)
(* ===================================================================== *)

Section InstructionPipeline.

Import StaticWebBrowser PyOps.

(** An instruction that passed validation is always translated to a
    command of the browser's own command set: the branch that passes the
    type string through is not reachable from validated input. *)
Theorem validated_instruction_has_a_command_type
    (type_in : string) (selector_in data_in : option string)
    (instruction : BrowserInstruction)
    (Hvalid : BrowserInstruction_validate type_in selector_in data_in = Ok instruction) :
  exists t,
    value_of t = type_in /\
    _web_browser_instruction_to_command instruction =
      mkCommand (Command (corresponding t))
                (present_or_empty data_in) (present_or_empty selector_in).
Proof.
  revert Hvalid. unfold BrowserInstruction_validate, validate_type_field.
  destruct (member_of_value type_in) as [t|] eqn:Hm; [|discriminate].
  intros H. injection H as <-. exists t.
  split; [now apply member_of_value_sound|].
  unfold _web_browser_instruction_to_command. cbn [type data selector].
  rewrite validate_type_value_of, !or_empty_present.
  destruct t; reflexivity.
Qed.

Lemma lower_char_idempotent (c : ascii) : lower_char (lower_char c) = lower_char c.
Proof. destruct c as [[] [] [] [] [] [] [] []]; reflexivity. Qed.

Lemma upper_lower_char_stable (c : ascii) :
  upper_char (lower_char (upper_char (lower_char c))) = upper_char (lower_char c).
Proof. destruct c as [[] [] [] [] [] [] [] []]; reflexivity. Qed.

Lemma lower_idempotent (s : string) : lower (lower s) = lower s.
Proof.
  induction s as [|c r IH]; cbn; [reflexivity|].
  now rewrite lower_char_idempotent, IH.
Qed.

(** [validate_type] is a normalisation: applied to its own result it
    changes nothing. *)
Theorem validate_type_idempotent (v : string) (Hascii : ascii_only v = true) :
  validate_type (validate_type v) = validate_type v.
Proof.
  unfold validate_type. destruct v as [|c r]; cbn; [reflexivity|].
  now rewrite upper_lower_char_stable, !lower_idempotent.
Qed.

End InstructionPipeline.

(* ===================================================================== *)
(** ** Properties of the output schemas *)
(* ===================================================================== *)

Section OutputSchemaProperties.

Import PyOps OutputSchema.

(** *** Dictionaries *)

Lemma lookup_remove_same (k : string) (d : list (string * value)) :
  lookup k (remove k d) = None.
Proof.
  induction d as [|[k' v] rest IH]; cbn; [reflexivity|].
  destruct (String.eqb k' k) eqn:E; cbn; [exact IH|].
  now rewrite E.
Qed.

Lemma lookup_remove_other (k k' : string) (d : list (string * value)) :
  k' <> k -> lookup k' (remove k d) = lookup k' d.
Proof.
  intros Hne. unfold remove.
  induction d as [|[k0 v] rest IH]; cbn; [reflexivity|].
  destruct (String.eqb k0 k) eqn:E; cbn.
  - apply String.eqb_eq in E. subst k0.
    destruct (String.eqb k k') eqn:E'; [|exact IH].
    apply String.eqb_eq in E'. congruence.
  - now rewrite IH.
Qed.

Lemma remove_absent (k : string) (d : list (string * value)) :
  lookup k d = None -> remove k d = d.
Proof.
  unfold remove. induction d as [|[k' v] rest IH]; cbn; [reflexivity|].
  destruct (String.eqb k' k); [discriminate|]. cbn.
  intros H. now rewrite IH.
Qed.

Lemma lookup_store_same (k : string) (x : value) (d : list (string * value)) :
  lookup k (store k x d) = Some x.
Proof.
  induction d as [|[k' v] rest IH]; cbn.
  - now rewrite String.eqb_refl.
  - destruct (String.eqb k' k) eqn:E; cbn.
    + now rewrite String.eqb_refl.
    + now rewrite E.
Qed.

Lemma lookup_store_other (k k' : string) (x : value) (d : list (string * value)) :
  k' <> k -> lookup k' (store k x d) = lookup k' d.
Proof.
  intros Hne. induction d as [|[k0 v] rest IH]; cbn.
  - destruct (String.eqb k k') eqn:E; [|reflexivity].
    apply String.eqb_eq in E. congruence.
  - destruct (String.eqb k0 k) eqn:E; cbn.
    + apply String.eqb_eq in E. subst k0.
      destruct (String.eqb k k') eqn:E'; [|reflexivity].
      apply String.eqb_eq in E'. congruence.
    + now rewrite IH.
Qed.

Lemma store_store (k : string) (x : value) (d : list (string * value)) :
  store k x (store k x d) = store k x d.
Proof.
  induction d as [|[k' v] rest IH]; cbn.
  - now rewrite String.eqb_refl.
  - destruct (String.eqb k' k) eqn:E; cbn.
    + now rewrite String.eqb_refl.
    + now rewrite E, IH.
Qed.

(** *** [discard] *)

Lemma discard_dict (k : string) (d : list (string * value)) :
  discard k (VDict d) = Ok (VDict (remove k d)).
Proof.
  unfold discard. cbn.
  destruct (lookup k d) eqn:E; cbn; rewrite ?E.
  - reflexivity.
  - now rewrite remove_absent.
Qed.

(** What [discard] returns no longer contains the key. *)
Lemma discard_absent (k : string) (v v' : value) :
  discard k v = Ok v' -> contains k v' = Ok false.
Proof.
  unfold discard.
  destruct v as [| b | z | s | l | d | m fs]; cbn; try discriminate.
  - destruct (is_substring k s) eqn:E; cbn; [discriminate|].
    intros H. injection H as <-. cbn. now rewrite E.
  - destruct (existsb (is_str k) l) eqn:E; cbn; [discriminate|].
    intros H. injection H as <-. cbn. now rewrite E.
  - destruct (lookup k d) eqn:E; cbn; rewrite ?E.
    + intros H. injection H as <-. cbn.
      now rewrite lookup_remove_same.
    + intros H. injection H as <-. cbn. now rewrite E.
  - intros H. injection H as <-. reflexivity.
Qed.

Lemma discard_stable (k : string) (v : value) :
  contains k v = Ok false -> discard k v = Ok v.
Proof. unfold discard. now intros ->. Qed.

(** *** [strip_titles] *)

Lemma strip_titles_entries (ps ps' : list (string * value)) :
  strip_titles ps = Ok ps' ->
  Forall2 (fun kv kv' => fst kv' = fst kv /\ discard "title" (snd kv) = Ok (snd kv'))
          ps ps'.
Proof.
  revert ps'. induction ps as [|[k spec] rest IH]; intros ps'; cbn.
  - intros H. injection H as <-. constructor.
  - destruct (discard "title" spec) as [spec'|] eqn:Hd; cbn; [|discriminate].
    destruct (strip_titles rest) as [rest'|]; cbn; [|discriminate].
    intros H. injection H as <-. constructor; [now split|now apply IH].
Qed.

Lemma forall2_lookup (ps ps' : list (string * value)) (name : string) :
  Forall2 (fun kv kv' => fst kv' = fst kv /\ discard "title" (snd kv) = Ok (snd kv'))
          ps ps' ->
  match lookup name ps, lookup name ps' with
  | Some spec, Some spec' => discard "title" spec = Ok spec'
  | None, None => True
  | _, _ => False
  end.
Proof.
  induction 1 as [|[k v] [k' v'] rest rest' [Hk Hd] _ IH]; cbn; [exact I|].
  cbn in Hk, Hd. subst k'.
  destruct (String.eqb k name); [exact Hd|exact IH].
Qed.

Lemma strip_titles_stable (ps ps' : list (string * value)) :
  strip_titles ps = Ok ps' -> strip_titles ps' = Ok ps'.
Proof.
  intros H. apply strip_titles_entries in H.
  induction H as [|[k v] [k' v'] rest rest' [_ Hd] _ IH]; cbn; [reflexivity|].
  cbn in Hd. apply discard_absent in Hd.
  rewrite (discard_stable _ _ Hd). cbn. now rewrite IH.
Qed.

Lemma strip_titles_of_mappings (ps : list (string * value)) :
  specs_are_mappings ps -> exists ps', strip_titles ps = Ok ps'.
Proof.
  induction 1 as [|[k spec] rest Hspec _ [rest' IH]]; cbn; [eauto|].
  destruct spec; try discriminate.
  rewrite discard_dict. cbn. rewrite IH. cbn. eauto.
Qed.

(** *** [get_output_schema] *)

(** The steps of [get_output_schema] on a document whose [properties]
    is a mapping. *)
Lemma get_output_schema_steps (d ps : list (string * value)) :
  lookup "properties" d = Some (VDict ps) ->
  get_output_schema (VDict d) =
    obind (strip_titles (remove "api_response" ps)) (fun ps' =>
      Ok (VDict (store "properties" (VDict ps')
                       (remove "title" (remove "description" d))))).
Proof.
  intros Hp. unfold get_output_schema.
  rewrite discard_dict. cbn [obind]. rewrite discard_dict. cbn [obind].
  cbn [getitem].
  rewrite !lookup_remove_other, Hp by discriminate. cbn [obind].
  rewrite discard_dict. cbn [obind strip_property_titles].
  destruct (strip_titles (remove "api_response" ps)); reflexivity.
Qed.

(** Without a [properties] entry the schema cannot be produced. *)
Theorem output_schema_needs_properties (d : list (string * value))
    (Hmissing : lookup "properties" d = None) :
  get_output_schema (VDict d) = Raise (KeyError "properties").
Proof.
  unfold get_output_schema.
  rewrite discard_dict. cbn [obind]. rewrite discard_dict. cbn [obind].
  cbn [getitem].
  now rewrite !lookup_remove_other, Hmissing by discriminate.
Qed.

(** What the published output schema no longer has: a description or a
    title of its own, an [api_response] property, and a title on any
    property. *)
Theorem output_schema_drops_titles_and_api_response
    (d ps : list (string * value)) (published : value)
    (Hproperties : lookup "properties" d = Some (VDict ps))
    (Hpublished : get_output_schema (VDict d) = Ok published) :
  exists d' ps',
    published = VDict d' /\
    lookup "description" d' = None /\
    lookup "title" d' = None /\
    lookup "properties" d' = Some (VDict ps') /\
    lookup "api_response" ps' = None /\
    Forall (fun kv => contains "title" (snd kv) = Ok false) ps'.
Proof.
  rewrite (get_output_schema_steps d ps Hproperties) in Hpublished.
  destruct (strip_titles (remove "api_response" ps)) as [ps'|] eqn:Hs;
    [|discriminate].
  cbn in Hpublished. injection Hpublished as <-.
  pose proof (strip_titles_entries _ _ Hs) as Hentries.
  eexists. exists ps'. split; [reflexivity|].
  repeat split.
  - rewrite lookup_store_other by discriminate.
    rewrite lookup_remove_other by discriminate. apply lookup_remove_same.
  - rewrite lookup_store_other by discriminate. apply lookup_remove_same.
  - apply lookup_store_same.
  - pose proof (forall2_lookup _ _ "api_response" Hentries) as H.
    rewrite lookup_remove_same in H.
    now destruct (lookup "api_response" ps').
  - clear Hs. induction Hentries as [|kv kv' rest rest' [_ Hd] _ IH];
      constructor; [now apply discard_absent in Hd|exact IH].
Qed.

(** What the published output schema keeps, when every property is
    described by a mapping: it is always produced; every entry of the
    document other than the description, the title and the properties is
    as it was; and every property other than [api_response] is still
    there, with every keyword other than its title as it was. *)
Theorem output_schema_keeps_everything_else
    (d ps : list (string * value))
    (Hproperties : lookup "properties" d = Some (VDict ps))
    (Hmappings : specs_are_mappings ps) :
  exists d' ps',
    get_output_schema (VDict d) = Ok (VDict d') /\
    lookup "properties" d' = Some (VDict ps') /\
    (forall k, k <> "description" -> k <> "title" -> k <> "properties" ->
               lookup k d' = lookup k d) /\
    (forall name spec,
        name <> "api_response" -> lookup name ps = Some (VDict spec) ->
        exists spec',
          lookup name ps' = Some (VDict spec') /\
          forall keyword, keyword <> "title" ->
                          lookup keyword spec' = lookup keyword spec).
Proof.
  rewrite (get_output_schema_steps d ps Hproperties).
  assert (Hm : specs_are_mappings (remove "api_response" ps)).
  { unfold specs_are_mappings, remove in *. apply Forall_forall.
    intros kv Hin. apply filter_In in Hin. destruct Hin as [Hin _].
    revert kv Hin. now apply Forall_forall. }
  destruct (strip_titles_of_mappings _ Hm) as [ps' Hs]. rewrite Hs. cbn.
  pose proof (strip_titles_entries _ _ Hs) as Hentries.
  eexists. exists ps'. split; [reflexivity|]. split; [apply lookup_store_same|].
  split.
  - intros k H1 H2 H3.
    rewrite lookup_store_other by assumption.
    now rewrite !lookup_remove_other by assumption.
  - intros name spec Hname Hspec.
    pose proof (forall2_lookup _ _ name Hentries) as H.
    rewrite lookup_remove_other, Hspec in H by assumption.
    destruct (lookup name ps') as [spec'|]; [|contradiction].
    rewrite discard_dict in H. injection H as <-.
    eexists. split; [reflexivity|].
    intros keyword Hkw. now apply lookup_remove_other.
Qed.

(** Publishing is idempotent: the published schema, published again, is
    itself. *)
Theorem output_schema_idempotent
    (d ps : list (string * value)) (published : value)
    (Hproperties : lookup "properties" d = Some (VDict ps))
    (Hpublished : get_output_schema (VDict d) = Ok published) :
  get_output_schema published = Ok published.
Proof.
  rewrite (get_output_schema_steps d ps Hproperties) in Hpublished.
  destruct (strip_titles (remove "api_response" ps)) as [ps'|] eqn:Hs;
    [|discriminate].
  cbn in Hpublished. injection Hpublished as <-.
  pose proof (strip_titles_entries _ _ Hs) as Hentries.
  pose proof (forall2_lookup _ _ "api_response" Hentries) as Hapi.
  rewrite lookup_remove_same in Hapi.
  destruct (lookup "api_response" ps') eqn:Hapi'; [contradiction|].
  rewrite (get_output_schema_steps _ ps') by apply lookup_store_same.
  rewrite (remove_absent "api_response" ps' Hapi').
  rewrite (strip_titles_stable _ _ Hs). cbn.
  rewrite (remove_absent "description"), (remove_absent "title").
  - now rewrite store_store.
  - rewrite lookup_store_other by discriminate. apply lookup_remove_same.
  - rewrite lookup_store_other by discriminate.
    rewrite lookup_remove_other by discriminate. apply lookup_remove_same.
Qed.

(** *** [get_output_ui_schema] *)

Lemma lookup_of_mappings (ps : list (string * value)) (name : string) :
  specs_are_mappings ps ->
  In name (map fst ps) ->
  exists spec, lookup name ps = Some (VDict spec).
Proof.
  induction 1 as [|[k v] rest Hv _ IH]; cbn; [contradiction|].
  intros Hin. destruct (String.eqb k name) eqn:E.
  - destruct v; try discriminate. eauto.
  - destruct Hin as [Hk|Hin]; [|now apply IH].
    subst k. now rewrite String.eqb_refl in E.
Qed.

Lemma lookup_not_a_key (ps : list (string * value)) (name : string) :
  existsb (String.eqb name) (map fst ps) = false -> lookup name ps = None.
Proof.
  induction ps as [|[k v] rest IH]; cbn; [reflexivity|].
  intros H. apply orb_false_iff in H. destruct H as [Hk Hrest].
  rewrite String.eqb_sym, Hk. now apply IH.
Qed.

Lemma add_widgets_entries (ps : list (string * value)) (names : list string) :
  (forall name, In name names -> exists spec, lookup name ps = Some (VDict spec)) ->
  forall u,
  exists u',
    add_widgets names (VDict ps) (VDict u) = Ok (VDict u') /\
    forall k,
      lookup k u' =
        if existsb (String.eqb k) names
        then match widget_of ps k with
             | Some widget => Some (VDict [("ui:widget", widget)])
             | None => lookup k u
             end
        else lookup k u.
Proof.
  induction names as [|name rest IH]; intros Hnames u.
  - exists u. split; reflexivity.
  - destruct (Hnames name (or_introl eq_refl)) as [spec Hspec].
    assert (Hrest : forall n, In n rest ->
                              exists spec, lookup n ps = Some (VDict spec))
      by (intros n Hn; apply Hnames; now right).
    cbn [add_widgets getitem]. rewrite Hspec. cbn [obind contains getitem].
    assert (Hw : widget_of ps name = lookup "widget" spec)
      by (unfold widget_of; now rewrite Hspec).
    destruct (lookup "widget" spec) as [widget|] eqn:Hwidget; cbn [obind setitem].
    + destruct (IH Hrest (store name (VDict [("ui:widget", widget)]) u))
        as [u' [Hrun Hu']].
      exists u'. split; [exact Hrun|].
      intros k. rewrite Hu'. cbn [existsb].
      destruct (String.eqb k name) eqn:E; cbn [orb].
      * apply String.eqb_eq in E. subst k. rewrite Hw, lookup_store_same.
        now destruct (existsb (String.eqb name) rest).
      * assert (k <> name) by (intros ->; now rewrite String.eqb_refl in E).
        now rewrite lookup_store_other.
    + destruct (IH Hrest u) as [u' [Hrun Hu']].
      exists u'. split; [exact Hrun|].
      intros k. rewrite Hu'. cbn [existsb].
      destruct (String.eqb k name) eqn:E; cbn [orb]; [|reflexivity].
      apply String.eqb_eq in E. subst k. rewrite Hw.
      now destruct (existsb (String.eqb name) rest).
Qed.

(** The output UI schema, entry by entry: the submit button is always
    switched off; every other property that declares a widget is shown
    with that widget, whatever the class's own UI schema said for it; and
    every other entry of the class's UI schema is as it was. *)
Theorem output_ui_schema_entries
    (ui d ps : list (string * value))
    (Hproperties : lookup "properties" d = Some (VDict ps))
    (Hmappings : specs_are_mappings ps) :
  exists ui',
    get_output_ui_schema (VDict ui) (VDict d) = Ok (VDict ui') /\
    forall k,
      lookup k ui' =
        if String.eqb k "ui:submitButtonOptions"
        then Some (VDict [("norender", VBool true)])
        else match widget_of ps k with
             | Some widget => Some (VDict [("ui:widget", widget)])
             | None => lookup k ui
             end.
Proof.
  unfold get_output_ui_schema. cbn [getitem]. rewrite Hproperties.
  cbn [obind keys].
  destruct (add_widgets_entries ps (map fst ps)
              (fun name => lookup_of_mappings ps name Hmappings) ui)
    as [u' [Hrun Hu']].
  rewrite Hrun. cbn [obind setitem].
  eexists. split; [reflexivity|].
  intros k. destruct (String.eqb k "ui:submitButtonOptions") eqn:E.
  - apply String.eqb_eq in E. subst k. apply lookup_store_same.
  - assert (k <> "ui:submitButtonOptions")
      by (intros ->; now rewrite String.eqb_refl in E).
    rewrite lookup_store_other by assumption. rewrite Hu'.
    destruct (existsb (String.eqb k) (map fst ps)) eqn:Hk; [reflexivity|].
    unfold widget_of. now rewrite (lookup_not_a_key ps k Hk).
Qed.

End OutputSchemaProperties.

(* ===================================================================== *)
(** ** The further properties on concrete runs *)
(* ===================================================================== *)

Section FurtherConcreteRuns.

Import ApiProcessorInterface Observations PyOps SessionAssets OutputSchema
  StaticWebBrowser Samples.

Lemma returned_call_ends_with_save_then_record_witness :
  let a := sample_actor true true in
  let tr := events_of_input plain_world refused_processor VNone a in
  exists before rec,
    tr = (before ++
          save_app_session_data_call (_session_id a) (_id a) (bk_session_data rec)
            :: stream_bookkeep (Some rec) :: end_of_call a)%list /\
    save_calls before = [] /\
    bookkeep_records before = [] /\
    on_stop_count before = 0.
Proof.
  exact (returned_call_ends_with_save_then_record plain_world refused_processor
           VNone (sample_actor true true) eq_refl).
Defined.

Lemma emitted_record_carries_usage_data_witness :
  let a := sample_actor false true in
  exists rec,
    bookkeep_records (events_of_input plain_world custom_record_processor VNone a)
      = [Some rec] /\
    usage_data custom_record_processor
      (actor_after_input plain_world custom_record_processor VNone a)
      = Ok (bk_usage_data rec).
Proof.
  exact (emitted_record_carries_usage_data plain_world custom_record_processor
           VNone (sample_actor false true) eq_refl).
Defined.

Lemma custom_record_is_emitted_as_supplied_witness :
  let a := sample_actor false true in
  let a' := actor_after_input plain_world custom_record_processor VNone a in
  let tr := events_of_input plain_world custom_record_processor VNone a in
  save_calls tr =
    match usage_data custom_record_processor a' with
    | Ok _ => [(_session_id a, _id a, bk_session_data custom_record)]
    | Raise _ => []
    end /\
  bookkeep_records tr =
    match usage_data custom_record_processor a' with
    | Ok u =>
        match save_app_session_data plain_world (_session_id a) (_id a)
                (bk_session_data custom_record) with
        | Ok _ => [Some (set_usage_data custom_record u)]
        | Raise _ => []
        end
    | Raise _ => []
    end.
Proof.
  exact (custom_record_is_emitted_as_supplied plain_world custom_record_processor
           VNone (sample_actor false true) custom_record eq_refl).
Defined.


Lemma tool_fields_input_is_hydrated_then_validated_witness :
  let m := VDict [("url", VStr "https://x.test")] in
  let i := VModel ApiProcessorSchema [("url", VStr "{{url}}")] in
  let c := VModel ApiProcessorSchema [] in
  hydrations (events_of_input plain_world text_processor m fields_actor) =
    [(_input_template fields_actor, m); (_config_template fields_actor, m)] /\
  process_calls (events_of_input plain_world text_processor m fields_actor) = [(i, c)] /\
  actor_after_input plain_world text_processor m fields_actor =
    with_config (with_input fields_actor i) c.
Proof.
  refine (tool_fields_input_is_hydrated_then_validated plain_world text_processor
            (VDict [("url", VStr "https://x.test")]) fields_actor
            (VModel ApiProcessorSchema [("url", VStr "{{url}}")])
            [("url", VStr "{{url}}")]
            (VModel ApiProcessorSchema [("url", VStr "{{url}}")])
            (VModel ApiProcessorSchema [])
            eq_refl _ eq_refl eq_refl eq_refl eq_refl).
  discriminate.
Defined.

Lemma normal_mode_hydrates_from_message_witness :
  let a := sample_actor false true in
  let m := VDict [("q", VStr "x")] in
  hydrations (events_of_input plain_world text_processor m a) =
    (_input_template a, m) ::
    (if truthy (_config a) then [(_config_template a, m)] else []) /\
  process_calls (events_of_input plain_world text_processor m a) =
    [(_input_template a, _config_template a)] /\
  actor_after_input plain_world text_processor m a =
    with_config (with_input a (_input_template a)) (_config_template a).
Proof.
  exact (normal_mode_hydrates_from_message plain_world text_processor
           (VDict [("q", VStr "x")]) (sample_actor false true)
           (_input_template (sample_actor false true))
           (_config_template (sample_actor false true))
           eq_refl eq_refl eq_refl eq_refl).
Defined.

Lemma rejected_tool_message_leaves_actor_unchanged_witness :
  let a := sample_actor true true in
  let m := VDict [("instructions", VList [])] in
  actor_after_input url_required_world text_processor m a = a /\
  hydrations (events_of_input url_required_world text_processor m a) = [] /\
  process_calls (events_of_input url_required_world text_processor m a) = [] /\
  error_signals (events_of_input url_required_world text_processor m a) =
    [ValidationError "url: Field required"].
Proof.
  exact (rejected_tool_message_leaves_actor_unchanged url_required_world
           text_processor (VDict [("instructions", VList [])])
           (sample_actor true true) (ValidationError "url: Field required")
           eq_refl eq_refl eq_refl).
Defined.

Lemma failed_config_hydration_keeps_new_input_witness :
  let a := sample_actor true true in
  let i := VModel ApiProcessorSchema tool_message in
  actor_after_input hydration_fails_world text_processor (VDict tool_message) a =
    with_input a i /\
  process_calls (events_of_input hydration_fails_world text_processor
                   (VDict tool_message) a) = [] /\
  error_signals (events_of_input hydration_fails_world text_processor
                   (VDict tool_message) a) = [Exception "undefined variable"].
Proof.
  exact (failed_config_hydration_keeps_new_input hydration_fails_world
           text_processor tool_message (sample_actor true true)
           (VModel ApiProcessorSchema tool_message)
           (Exception "undefined variable") eq_refl eq_refl eq_refl eq_refl).
Defined.

Lemma replay_runs_on_the_original_templates_witness :
  let calls := [mkCall plain_world text_processor (VDict [("q", VStr "x")]);
                mkCall save_fails_world refused_processor VNone] in
  let a0 := sample_actor false true in
  let a := run_inputs calls a0 in
  hydrations (events_of_input plain_world text_processor VNone a) = [] /\
  process_calls (events_of_input plain_world text_processor VNone a) =
    [(_input_template a0, _config_template a0)].
Proof.
  exact (replay_runs_on_the_original_templates
           [mkCall plain_world text_processor (VDict [("q", VStr "x")]);
            mkCall save_fails_world refused_processor VNone]
           plain_world text_processor (sample_actor false true) eq_refl).
Defined.

Lemma constructed_actor_starts_from_its_templates_witness :
  exists a0,
    __init__ plain_world base_processor example_input (VDict []) (VDict [])
             "session-1" None (VStr "app-1") [] (VDict []) "processor-1" true false []
      = (Ok a0, [get_app_session_data_call "session-1" "processor-1"]) /\
    _input a0 = _input_template a0 /\
    _config a0 = _config_template a0 /\
    _is_tool a0 = true /\
    _session_enabled a0 = false /\
    _input_fields a0 = [] /\
    _session_id a0 = "session-1" /\
    _id a0 = "processor-1".
Proof.
  eexists. split; [reflexivity|].
  exact (proj2 (constructed_actor_starts_from_its_templates plain_world
                  base_processor example_input (VDict []) (VDict []) "session-1"
                  None (VStr "app-1") [] (VDict []) "processor-1" true false
                  [] _ _ eq_refl)).
Defined.

Lemma rejected_declaration_fails_before_session_load_witness :
  exists e,
    __init__ plain_world base_processor VNone (VDict []) (VDict [])
             "session-1" None (VStr "app-1") [] (VDict []) "processor-1" false true []
    = (Raise e, []).
Proof.
  exact (rejected_declaration_fails_before_session_load plain_world
           base_processor VNone (VDict []) (VDict []) "session-1" None
           (VStr "app-1") [] (VDict []) "processor-1" false true []
           (or_intror eq_refl)).
Defined.

Lemma asset_stream_is_none_when_creation_fails_witness :
  fst (_create_asset_stream asset_store_fails_world sample_AssetStream
         (VStr "video/webm") VNone (mkState (sample_actor false true) [])) = Ok VNone.
Proof.
  exact (asset_stream_is_none_when_creation_fails asset_store_fails_world
           sample_AssetStream (VStr "video/webm") VNone
           (mkState (sample_actor false true) [])
           (Exception "asset store unavailable") eq_refl).
Defined.

Lemma plain_reference_is_returned_unchanged_witness :
  let s := mkState (sample_actor false true) [] in
  _get_session_asset_data_uri sample_get_asset_data
    (VStr "https://example.com/logo.png") true s =
    (Ok (VStr "https://example.com/logo.png"), s).
Proof.
  exact (plain_reference_is_returned_unchanged sample_get_asset_data
           "https://example.com/logo.png" true
           (mkState (sample_actor false true) []) eq_refl).
Defined.

Lemma object_reference_resolves_to_data_uri_witness :
  fst (_get_session_asset_data_uri sample_get_asset_data
         (VStr "objref://sessionfiles/1") true
         (mkState (sample_actor false true) [])) =
    Ok (match lookup "data_uri" stored_asset with
        | Some uri => uri
        | None => VStr "objref://sessionfiles/1"
        end).
Proof.
  exact (object_reference_resolves_to_data_uri sample_get_asset_data
           "objref://sessionfiles/1" true
           (mkState (sample_actor false true) []) stored_asset eq_refl eq_refl).
Defined.

Lemma failed_upload_breaks_the_reference_witness :
  let s := mkState (sample_actor false true) [] in
  fst (screenshot_reference asset_store_fails_world "PNG" "shot-1" "UE5H" s) =
    Raise (AttributeError "'str' object has no attribute 'objref'") /\
  fst (download_reference asset_store_fails_world "text/csv" "report.csv" "YSxi" s) =
    Raise (AttributeError "'str' object has no attribute 'objref'").
Proof.
  refine (failed_upload_breaks_the_reference asset_store_fails_world
            "PNG" "shot-1" "UE5H" "text/csv"
            (mkState (sample_actor false true) [])
            (Exception "asset store unavailable") _ (fun _ _ _ => eq_refl)).
  discriminate.
Defined.

Lemma validated_instruction_has_a_command_type_witness :
  exists t,
    value_of t = "Type" /\
    _web_browser_instruction_to_command
      (mkInstruction "Type" (Some "#q") (Some "rocq")) =
      mkCommand (Command (corresponding t))
                (present_or_empty (Some "rocq")) (present_or_empty (Some "#q")).
Proof.
  exact (validated_instruction_has_a_command_type "Type" (Some "#q") (Some "rocq")
           (mkInstruction "Type" (Some "#q") (Some "rocq")) eq_refl).
Defined.

Lemma validate_type_idempotent_witness :
  validate_type (validate_type "sCROLLx") = validate_type "sCROLLx".
Proof. exact (validate_type_idempotent "sCROLLx" eq_refl). Defined.

Lemma output_schema_needs_properties_witness :
  get_output_schema (VDict [("title", VStr "Output"); ("type", VStr "object")]) =
    Raise (KeyError "properties").
Proof.
  exact (output_schema_needs_properties
           [("title", VStr "Output"); ("type", VStr "object")] eq_refl).
Defined.

Lemma example_properties_are_mappings : specs_are_mappings example_properties.
Proof. repeat constructor. Defined.

Lemma output_schema_drops_titles_and_api_response_witness :
  exists d' ps',
    VDict [("type", VStr "object");
           ("properties",
            VDict [("text", VDict [("type", VStr "string");
                                   ("widget", VStr "textarea")]);
                   ("steps", VDict [("type", VStr "array")])])] = VDict d' /\
    lookup "description" d' = None /\
    lookup "title" d' = None /\
    lookup "properties" d' = Some (VDict ps') /\
    lookup "api_response" ps' = None /\
    Forall (fun kv => contains "title" (snd kv) = Ok false) ps'.
Proof.
  exact (output_schema_drops_titles_and_api_response example_document
           example_properties _ eq_refl eq_refl).
Defined.

Lemma output_schema_keeps_everything_else_witness :
  exists d' ps',
    get_output_schema (VDict example_document) = Ok (VDict d') /\
    lookup "properties" d' = Some (VDict ps') /\
    (forall k, k <> "description" -> k <> "title" -> k <> "properties" ->
               lookup k d' = lookup k example_document) /\
    (forall name spec,
        name <> "api_response" -> lookup name example_properties = Some (VDict spec) ->
        exists spec',
          lookup name ps' = Some (VDict spec') /\
          forall keyword, keyword <> "title" ->
                          lookup keyword spec' = lookup keyword spec).
Proof.
  exact (output_schema_keeps_everything_else example_document example_properties
           eq_refl example_properties_are_mappings).
Defined.

Lemma output_schema_idempotent_witness :
  get_output_schema
    (VDict [("type", VStr "object");
            ("properties",
             VDict [("text", VDict [("type", VStr "string");
                                    ("widget", VStr "textarea")]);
                    ("steps", VDict [("type", VStr "array")])])]) =
  Ok (VDict [("type", VStr "object");
             ("properties",
              VDict [("text", VDict [("type", VStr "string");
                                     ("widget", VStr "textarea")]);
                     ("steps", VDict [("type", VStr "array")])])]).
Proof.
  exact (output_schema_idempotent example_document example_properties _
           eq_refl eq_refl).
Defined.

Lemma output_ui_schema_entries_witness :
  exists ui',
    get_output_ui_schema (VDict example_ui_schema) (VDict example_document)
      = Ok (VDict ui') /\
    forall k,
      lookup k ui' =
        if String.eqb k "ui:submitButtonOptions"
        then Some (VDict [("norender", VBool true)])
        else match widget_of example_properties k with
             | Some widget => Some (VDict [("ui:widget", widget)])
             | None => lookup k example_ui_schema
             end.
Proof.
  exact (output_ui_schema_entries example_ui_schema example_document
           example_properties eq_refl example_properties_are_mappings).
Defined.

End FurtherConcreteRuns.
